(** * The invocation orchestrator [ai] of packages/core/src/services/ai/index.ts

    A shallow embedding of the exported function [ai] and of the values it
    builds, followed by the properties of the orchestrator that the design
    document states about it.

    JavaScript objects used as dictionaries (the generation config, the
    options handed to the adapter factory and to the streaming backend) are
    finite maps from property names to values: an own property whose value is
    [undefined] is a key bound to [JUndefined], which is not the same as an
    absent key once objects are spread or passed to lodash's [omit].

    The collaborators imported by the module ([applyAllRules],
    [createProvider], [buildTools], [handleAICallAPIError], and the
    [streamText], [streamObject], [jsonSchema] and [smoothStream] of the AI
    SDK) are not part of the file: they are the fields of an environment
    record.  Each of them either returns or throws, and every call that [ai]
    makes is recorded, in order, in a trace. *)

From Stdlib Require Import Ascii String.
From stdpp Require Import gmap strings list fin_maps.

Local Open Scope string_scope.
Local Open Scope list_scope.

(** ** Values *)

(** Plain data, as found in a config or a message.  [ai] copies numbers and
    never computes with them, so they are kept as integers. *)
#[warnings="-register-all"]
Inductive Json : Type :=
| JUndefined
| JNull
| JBool (b : bool)
| JNum (n : Z)
| JStr (s : string)
| JArr (items : list Json)
| JObj (fields : list (string * Json)).

(** [obj.key]: reading a property that is not there gives [undefined]. *)
Definition get (o : gmap string Json) (key : string) : Json :=
  default JUndefined (o !! key).

(** [v ?? d] *)
Definition nullish_coalesce (v d : Json) : Json :=
  match v with
  | JUndefined | JNull => d
  | _ => v
  end.

(** lodash [omit(o, [key])] with a single top-level key. *)
Definition omit {V : Type} (o : gmap string V) (key : string) : gmap string V :=
  delete key o.

(** [{ ...base, ...later }]: properties of [later] win. *)
Definition spread {V : Type} (base later : gmap string V) : gmap string V :=
  later ∪ base.

Definition Providers : Type := string.
Definition Message : Type := Json.

(** The fields of [ProviderApiKey] that [ai] reads. *)
Record ProviderApiKey : Type := {
  pk_provider : Providers;
  pk_token : string;
  pk_url : option string
}.

Inductive RunErrorCodes : Type :=
| AIProviderConfigError
| AIRunError
| Unknown.

Record ChainError : Type := {
  code : RunErrorCodes;
  message : string
}.

(** [Result.ok(v)] and [Result.error(e)] *)
Inductive TypedResult (V E : Type) : Type :=
| Result_ok (value : V)
| Result_error (error : E).
Arguments Result_ok {V E} value.
Arguments Result_error {V E} error.

(** What a JavaScript call can do: return a value or throw. *)
Record Exn : Type := { exn_name : string; exn_message : string }.

Inductive Outcome (A : Type) : Type :=
| Returns (a : A)
| Throws (e : Exn).
Arguments Returns {A} a.
Arguments Throws {A} e.

(** Opaque handles of the AI SDK. *)
Record LanguageModel : Type := { modelId : string }.
Record AbortSignal : Type := { signal_id : nat }.
Record Schema : Type := { schema_json : Json }.
Record StreamTransform : Type := { transform_name : string }.
Record Tool : Type := { tool_description : string; tool_parameters : Json }.

Definition StreamChunk : Type := Json.
Definition Stream : Type := list StreamChunk.
(** An eventual value settles to a value or to a rejection. *)
Definition Eventual (A : Type) : Type := Outcome A.

(** A property value of the options object given to the streaming backend. *)
Inductive OptValue : Type :=
| OData (j : Json)
| OModel (m : LanguageModel)
| OMessages (ms : list Message)
| OTools (t : gmap string Tool)
| OSignal (s : AbortSignal)
| OTelemetry (isEnabled : bool)
| OSchema (s : Schema)
| OTransform (t : StreamTransform).

(** An optional JavaScript value: [undefined] when it is not there. *)
Definition optional {A : Type} (f : A → OptValue) (o : option A) : OptValue :=
  from_option f (OData JUndefined) o.

Inductive ObjectOutput : Type :=
| output_object
| output_array
| output_no_schema.

Definition ObjectOutput_string (o : ObjectOutput) : string :=
  match o with
  | output_object => "object"
  | output_array => "array"
  | output_no_schema => "no-schema"
  end.

Inductive StreamType : Type :=
| type_object
| type_text.

Record StreamObjectResult : Type := {
  so_fullStream : Stream;
  so_object : Eventual Json;
  so_usage : Eventual Json;
  so_providerMetadata : Eventual Json
}.

Record StreamTextResult : Type := {
  st_fullStream : Stream;
  st_text : Eventual string;
  st_reasoning : Eventual Json;
  st_usage : Eventual Json;
  st_toolCalls : Eventual (list Json);
  st_providerMetadata : Eventual Json
}.

Record AIReturnObject : Type := {
  ro_fullStream : Stream;
  ro_object : Eventual Json;
  ro_usage : Eventual Json;
  ro_providerMetadata : Eventual Json;
  ro_type : StreamType;
  ro_providerName : Providers
}.

Record AIReturnText : Type := {
  rt_fullStream : Stream;
  rt_text : Eventual string;
  rt_reasoning : Eventual Json;
  rt_usage : Eventual Json;
  rt_toolCalls : Eventual (list Json);
  rt_providerMetadata : Eventual Json;
  rt_type : StreamType;
  rt_providerName : Providers
}.

Inductive AIReturn : Type :=
| ReturnObject (r : AIReturnObject)
| ReturnText (r : AIReturnText).

(** [result.type] and [result.providerName] *)
Definition type (r : AIReturn) : StreamType :=
  match r with
  | ReturnObject o => ro_type o
  | ReturnText t => rt_type t
  end.

Definition providerName (r : AIReturn) : Providers :=
  match r with
  | ReturnObject o => ro_providerName o
  | ReturnText t => rt_providerName t
  end.

(** ** The collaborators *)

Record AppliedRule : Type := { ruleMessage : string }.

Record AppliedRules : Type := {
  rules : list AppliedRule;
  rule_messages : list Message;
  rule_config : gmap string Json
}.

Record CreateProviderArgs : Type := {
  cp_messages : list Message;
  cp_provider : ProviderApiKey;
  cp_apiKey : string;
  cp_url : option string;
  cp_config : gmap string Json
}.

(** [(modelId, options) => LanguageModel] *)
Definition ProviderAdapter : Type :=
  Json → gmap string Json → Outcome LanguageModel.

Record AISDKProvider : Type := {
  streamText : gmap string OptValue → Outcome StreamTextResult;
  streamObject : gmap string OptValue → Outcome StreamObjectResult
}.

(** An optional property of an object: absent ([None]), or an own property
    that holds [undefined] ([Some None]) or a value. *)
Definition Property (A : Type) : Type := option (option A).

(** [Partial<AISDKProvider>] *)
Record PartialAISDKProvider : Type := {
  partial_streamText :
    Property (gmap string OptValue → Outcome StreamTextResult);
  partial_streamObject :
    Property (gmap string OptValue → Outcome StreamObjectResult)
}.

(** The [streamText] and [streamObject] that [ai] ends up calling. *)
Record ResolvedSDKProvider : Type := {
  resolved_streamText :
    option (gmap string OptValue → Outcome StreamTextResult);
  resolved_streamObject :
    option (gmap string OptValue → Outcome StreamObjectResult)
}.

Definition AIResult : Type := TypedResult AIReturn ChainError.

Record Env : Type := {
  applyAllRules :
    Providers → list Message → gmap string Json → Outcome AppliedRules;
  createProvider :
    CreateProviderArgs → Outcome (TypedResult ProviderAdapter ChainError);
  buildTools : Json → Outcome (TypedResult (option (gmap string Tool)) ChainError);
  handleAICallAPIError : Exn → Outcome AIResult;
  jsonSchema : Json → Outcome Schema;
  smoothStream : Outcome StreamTransform;
  DEFAULT_AI_SDK_PROVIDER : AISDKProvider
}.

(** ** Calls, traces and the monad of [ai] *)

Inductive Call : Type :=
| CallApplyAllRules (providerType : Providers) (ms : list Message)
    (cfg : gmap string Json)
| CallCreateProvider (args : CreateProviderArgs)
| CallProviderAdapter (model : Json) (opts : gmap string Json)
| CallBuildTools (tools : Json)
| CallJsonSchema (schema : Json)
| CallSmoothStream
| CallStreamObject (opts : gmap string OptValue)
| CallStreamText (opts : gmap string OptValue)
| CallHandleAICallAPIError (e : Exn).

(** A computation: the calls it made, then how it ended. *)
Definition M (A : Type) : Type := (list Call * Outcome A)%type.

Definition trace {A : Type} (m : M A) : list Call := m.1.
Definition outcome {A : Type} (m : M A) : Outcome A := m.2.

Definition ret {A : Type} (a : A) : M A := ([], Returns a).

Definition bind {A B : Type} (m : M A) (k : A → M B) : M B :=
  match m with
  | (t, Returns a) => let r := k a in (t ++ r.1, r.2)
  | (t, Throws e) => (t, Throws e)
  end.

(** Calling a collaborator records the call. *)
Definition call {A : Type} (c : Call) (o : Outcome A) : M A := ([c], o).

(** [try { m } catch (e) { return h(e) }] *)
Definition try_catch {A : Type} (m : M A) (h : Exn → M A) : M A :=
  match m with
  | (t, Returns a) => (t, Returns a)
  | (t, Throws e) => let r := h e in (t ++ r.1, r.2)
  end.

Notation "'let*' x ':=' m 'in' k" := (bind m (fun x => k))
  (at level 10, x name, m at level 100, k at level 200).

(** ** The request *)

Record AiArgs : Type := {
  provider : ProviderApiKey;
  prompt : option string;
  messages : list Message;
  config : gmap string Json;
  schema : option Json;
  output : option ObjectOutput;
  customLanguageModel : option LanguageModel;
  aiSdkProvider : option PartialAISDKProvider;
  abortSignal : option AbortSignal
}.

Definition newline : string := String "010"%char EmptyString.

(** [xs.join(sep)] *)
Fixpoint join (sep : string) (xs : list string) : string :=
  match xs with
  | [] => EmptyString
  | [x] => x
  | x :: rest => x +:+ sep +:+ join sep rest
  end.

(** The message of the error returned on rule violations. *)
Definition rule_violations_message (rs : list AppliedRule) : string :=
  "There are rule violations:" +:+ newline
  +:+ join newline (map (λ rule, "- " +:+ ruleMessage rule) rs).

(** [{ ...DEFAULT_AI_SDK_PROVIDER, ...(aiSdkProvider || {}) }]: an own
    property of [aiSdkProvider] replaces the default, also when it holds
    [undefined]. *)
Definition resolve_sdk (d : AISDKProvider) (p : option PartialAISDKProvider)
  : ResolvedSDKProvider :=
  match p with
  | None =>
      {| resolved_streamText := Some (streamText d);
         resolved_streamObject := Some (streamObject d) |}
  | Some p =>
      {| resolved_streamText :=
           default (Some (streamText d)) (partial_streamText p);
         resolved_streamObject :=
           default (Some (streamObject d)) (partial_streamObject p) |}
  end.

Definition not_a_function (name : string) : Exn :=
  {| exn_name := "TypeError"; exn_message := name +:+ " is not a function" |}.

(** [f(opts)]: calling [undefined] throws a [TypeError] and calls nothing. *)
Definition invoke {A : Type} (name : string)
    (c : gmap string OptValue → Call)
    (f : option (gmap string OptValue → Outcome A))
    (opts : gmap string OptValue) : M A :=
  match f with
  | Some f => call (c opts) (f opts)
  | None => ([], Throws (not_a_function name))
  end.

(** The second argument of the adapter factory:
    [{ cacheControl: config.cacheControl ?? false,
       ...omit(config, ['providerOptions']) }] *)
Definition adapter_options (config : gmap string Json) : gmap string Json :=
  spread
    {[ "cacheControl" := nullish_coalesce (get config "cacheControl") (JBool false) ]}
    (omit config "providerOptions").

(** [commonOptions] *)
Definition commonOptions (config : gmap string Json)
    (languageModel : LanguageModel) (prompt : option string)
    (messages : list Message) (tools : option (gmap string Tool))
    (abortSignal : option AbortSignal) : gmap string OptValue :=
  let schemaLessConfig := omit config "schema" in
  <["experimental_telemetry" := OTelemetry true]>
  (<["providerOptions" := OData (get config "providerOptions")]>
  (<["abortSignal" := optional OSignal abortSignal]>
  (<["tools" := optional OTools tools]>
  (<["messages" := OMessages messages]>
  (<["prompt" := optional (λ p, OData (JStr p)) prompt]>
  (<["model" := OModel languageModel]>
  (OData <$> schemaLessConfig))))))).

(** The body of the [try] block. *)
Definition ai_try (env : Env) (a : AiArgs) : M AIResult :=
  let sdk := resolve_sdk (DEFAULT_AI_SDK_PROVIDER env) (aiSdkProvider a) in
  let* rule :=
    call (CallApplyAllRules (pk_provider (provider a)) (messages a) (config a))
         (applyAllRules env (pk_provider (provider a)) (messages a) (config a)) in
  if bool_decide (0 < length (rules rule)) then
    ret (Result_error
           {| code := AIRunError;
              message := rule_violations_message (rules rule) |} : AIResult)
  else
    let providerType := pk_provider (provider a) in
    let apiKey := pk_token (provider a) in
    let url := pk_url (provider a) in
    let config := rule_config rule in
    let messages := rule_messages rule in
    let model := get config "model" in
    let tools := get config "tools" in
    let cp_args :=
      {| cp_messages := messages; cp_provider := provider a;
         cp_apiKey := apiKey; cp_url := url; cp_config := config |} in
    let* providerAdapterResult :=
      call (CallCreateProvider cp_args) (createProvider env cp_args) in
    match providerAdapterResult with
    | Result_error e => ret (Result_error e : AIResult)
    | Result_ok providerAdapter =>
        let* languageModel :=
          match customLanguageModel a with
          | Some custom => ret custom
          | None =>
              call (CallProviderAdapter model (adapter_options config))
                   (providerAdapter model (adapter_options config))
          end in
        let* toolsResult := call (CallBuildTools tools) (buildTools env tools) in
        match toolsResult with
        | Result_error e => ret (Result_error e : AIResult)
        | Result_ok toolsValue =>
            let common :=
              commonOptions config languageModel (prompt a) messages
                toolsValue (abortSignal a) in
            match schema a, output a with
            | Some schema, Some output =>
                let* s := call (CallJsonSchema schema) (jsonSchema env schema) in
                let opts :=
                  <["output" := OData (JStr (ObjectOutput_string output))]>
                  (<["schema" := OSchema s]> common) in
                let* result :=
                  invoke "streamObject" CallStreamObject
                    (resolved_streamObject sdk) opts in
                ret (Result_ok (E := ChainError) (ReturnObject
                  {| ro_fullStream := so_fullStream result;
                     ro_object := so_object result;
                     ro_usage := so_usage result;
                     ro_providerMetadata := so_providerMetadata result;
                     ro_type := type_object;
                     ro_providerName := providerType |}))
            | _, _ =>
                let* t := call CallSmoothStream (smoothStream env) in
                let opts := <["experimental_transform" := OTransform t]> common in
                let* result :=
                  invoke "streamText" CallStreamText
                    (resolved_streamText sdk) opts in
                ret (Result_ok (E := ChainError) (ReturnText
                  {| rt_fullStream := st_fullStream result;
                     rt_text := st_text result;
                     rt_reasoning := st_reasoning result;
                     rt_usage := st_usage result;
                     rt_toolCalls := st_toolCalls result;
                     rt_providerMetadata := st_providerMetadata result;
                     rt_type := type_text;
                     rt_providerName := providerType |}))
            end
        end
    end.

(** [export async function ai(...)] *)
Definition ai (env : Env) (a : AiArgs) : M AIResult :=
  try_catch (ai_try env a)
    (λ e, call (CallHandleAICallAPIError e) (handleAICallAPIError env e)).

(** ** Reading a run of [ai] *)

(** The options of a call to the streaming backend. *)
Definition backend_options (c : Call) : option (gmap string OptValue) :=
  match c with
  | CallStreamObject o | CallStreamText o => Some o
  | _ => None
  end.

(** The argument of [createProvider]. *)
Definition createProvider_args (a : AiArgs) (rule : AppliedRules)
  : CreateProviderArgs :=
  {| cp_messages := rule_messages rule; cp_provider := provider a;
     cp_apiKey := pk_token (provider a); cp_url := pk_url (provider a);
     cp_config := rule_config rule |}.

(** The Rule Engine returned [rule] without violations. *)
Definition validated (env : Env) (a : AiArgs) (rule : AppliedRules) : Prop :=
  applyAllRules env (pk_provider (provider a)) (messages a) (config a)
    = Returns rule
  ∧ rules rule = [].

(** [languageModel] is the handle that [ai] settles on. *)
Definition resolved (env : Env) (a : AiArgs) (rule : AppliedRules)
    (languageModel : LanguageModel) : Prop :=
  ∃ providerAdapter,
    createProvider env (createProvider_args a rule)
      = Returns (Result_ok providerAdapter)
    ∧ match customLanguageModel a with
      | Some custom => languageModel = custom
      | None =>
          providerAdapter (get (rule_config rule) "model")
            (adapter_options (rule_config rule)) = Returns languageModel
      end.

(** The options given to each entry point of the backend. *)
Definition streamObject_options (common : gmap string OptValue)
    (s : Schema) (out : ObjectOutput) : gmap string OptValue :=
  <["output" := OData (JStr (ObjectOutput_string out))]>
    (<["schema" := OSchema s]> common).

Definition streamText_options (common : gmap string OptValue)
    (t : StreamTransform) : gmap string OptValue :=
  <["experimental_transform" := OTransform t]> common.

(** How a call to the streaming backend comes about. *)
Inductive Dispatch (env : Env) (a : AiArgs) : Call → Prop :=
| DispatchObject rule lm tools sch out s :
    validated env a rule →
    resolved env a rule lm →
    buildTools env (get (rule_config rule) "tools") = Returns (Result_ok tools) →
    schema a = Some sch →
    output a = Some out →
    jsonSchema env sch = Returns s →
    Dispatch env a
      (CallStreamObject
         (streamObject_options
            (commonOptions (rule_config rule) lm (prompt a)
               (rule_messages rule) tools (abortSignal a)) s out))
| DispatchText rule lm tools t :
    validated env a rule →
    resolved env a rule lm →
    buildTools env (get (rule_config rule) "tools") = Returns (Result_ok tools) →
    schema a = None ∨ output a = None →
    smoothStream env = Returns t →
    Dispatch env a
      (CallStreamText
         (streamText_options
            (commonOptions (rule_config rule) lm (prompt a)
               (rule_messages rule) tools (abortSignal a)) t)).

(** The error translator returns an error result for every exception. *)
Definition translates (env : Env) : Prop :=
  ∀ e, ∃ c, handleAICallAPIError env e = Returns (Result_error c).

(** The option names that [commonOptions] sets itself, after the spread of
    the config. *)
Definition common_keys : list string :=
  ["model"; "prompt"; "messages"; "tools"; "abortSignal"; "providerOptions";
   "experimental_telemetry"].

(** The option names added for one entry point of the backend. *)
Definition mode_keys (c : Call) : list string :=
  match c with
  | CallStreamObject _ => ["schema"; "output"]
  | CallStreamText _ => ["experimental_transform"]
  | _ => []
  end.

(** ** Lines of a text *)

Definition is_newline (c : ascii) : bool := Ascii.eqb c "010"%char.

(** [s.split('\n')] *)
Fixpoint lines (s : string) : list string :=
  match s with
  | EmptyString => [EmptyString]
  | String c rest =>
      if is_newline c then EmptyString :: lines rest
      else match lines rest with
           | [] => [String c EmptyString]
           | l :: ls => String c l :: ls
           end
  end.

Fixpoint single_line (s : string) : bool :=
  match s with
  | EmptyString => true
  | String c rest => negb (is_newline c) && single_line rest
  end.

(** The places of the [try] block where an exception can come from. *)
Inductive Raises (env : Env) (a : AiArgs) : Exn → Prop :=
| RaisesApplyAllRules e :
    applyAllRules env (pk_provider (provider a)) (messages a) (config a)
      = Throws e →
    Raises env a e
| RaisesCreateProvider rule e :
    validated env a rule →
    createProvider env (createProvider_args a rule) = Throws e →
    Raises env a e
| RaisesProviderAdapter rule providerAdapter e :
    validated env a rule →
    createProvider env (createProvider_args a rule)
      = Returns (Result_ok providerAdapter) →
    customLanguageModel a = None →
    providerAdapter (get (rule_config rule) "model")
      (adapter_options (rule_config rule)) = Throws e →
    Raises env a e
| RaisesBuildTools rule lm e :
    validated env a rule →
    resolved env a rule lm →
    buildTools env (get (rule_config rule) "tools") = Throws e →
    Raises env a e
| RaisesJsonSchema rule lm tools sch out e :
    validated env a rule →
    resolved env a rule lm →
    buildTools env (get (rule_config rule) "tools") = Returns (Result_ok tools) →
    schema a = Some sch →
    output a = Some out →
    jsonSchema env sch = Throws e →
    Raises env a e
| RaisesStreamObject rule lm tools sch out s e :
    validated env a rule →
    resolved env a rule lm →
    buildTools env (get (rule_config rule) "tools") = Returns (Result_ok tools) →
    schema a = Some sch →
    output a = Some out →
    jsonSchema env sch = Returns s →
    outcome
      (invoke "streamObject" CallStreamObject
         (resolved_streamObject
            (resolve_sdk (DEFAULT_AI_SDK_PROVIDER env) (aiSdkProvider a)))
         (streamObject_options
            (commonOptions (rule_config rule) lm (prompt a)
               (rule_messages rule) tools (abortSignal a)) s out))
      = Throws e →
    Raises env a e
| RaisesSmoothStream rule lm tools e :
    validated env a rule →
    resolved env a rule lm →
    buildTools env (get (rule_config rule) "tools") = Returns (Result_ok tools) →
    schema a = None ∨ output a = None →
    smoothStream env = Throws e →
    Raises env a e
| RaisesStreamText rule lm tools t e :
    validated env a rule →
    resolved env a rule lm →
    buildTools env (get (rule_config rule) "tools") = Returns (Result_ok tools) →
    schema a = None ∨ output a = None →
    smoothStream env = Returns t →
    outcome
      (invoke "streamText" CallStreamText
         (resolved_streamText
            (resolve_sdk (DEFAULT_AI_SDK_PROVIDER env) (aiSdkProvider a)))
         (streamText_options
            (commonOptions (rule_config rule) lm (prompt a)
               (rule_messages rule) tools (abortSignal a)) t))
      = Throws e →
    Raises env a e.

(** The config fields that a structured call does not receive as they are. *)
Definition replaced_keys : list string :=
  ["schema"; "model"; "tools"; "prompt"; "messages"; "abortSignal";
   "experimental_telemetry"; "output"].

(** ** Stubs and requests used to run [ai] *)

Definition stub_adapter : ProviderAdapter :=
  λ model _,
    Returns {| modelId := match model with JStr s => s | _ => "unknown" end |}.

Definition hello_text : StreamTextResult :=
  {| st_fullStream := [JStr "He"; JStr "llo"];
     st_text := Returns "Hello";
     st_reasoning := Returns JUndefined;
     st_usage := Returns (JObj [("totalTokens", JNum 2)]);
     st_toolCalls := Returns [];
     st_providerMetadata := Returns JUndefined |}.

Definition hello_object : StreamObjectResult :=
  {| so_fullStream := [JStr "{"; JStr "}"];
     so_object := Returns (JObj []);
     so_usage := Returns (JObj [("totalTokens", JNum 2)]);
     so_providerMetadata := Returns JUndefined |}.

Definition stub_sdk : AISDKProvider :=
  {| streamText := λ _, Returns hello_text;
     streamObject := λ _, Returns hello_object |}.

Definition rate_limited : Exn :=
  {| exn_name := "AI_APICallError"; exn_message := "rate limited" |}.

Definition failing_sdk : AISDKProvider :=
  {| streamText := λ _, Throws rate_limited;
     streamObject := λ _, Throws rate_limited |}.

Definition stub_translator (e : Exn) : Outcome AIResult :=
  Returns (Result_error {| code := AIRunError; message := exn_message e |}).

(** Every collaborator succeeds and the rules change nothing. *)
Definition stub_env : Env :=
  {| applyAllRules := λ _ ms cfg,
       Returns {| rules := []; rule_messages := ms; rule_config := cfg |};
     createProvider := λ _, Returns (Result_ok stub_adapter);
     buildTools := λ _, Returns (Result_ok (Some ∅));
     handleAICallAPIError := stub_translator;
     jsonSchema := λ j, Returns {| schema_json := j |};
     smoothStream := Returns {| transform_name := "smoothStream" |};
     DEFAULT_AI_SDK_PROVIDER := stub_sdk |}.

Definition two_violations : AppliedRules :=
  {| rules := [ {| ruleMessage := "System messages must come first." |};
                {| ruleMessage := "Images are not supported." |} ];
     rule_messages := [];
     rule_config := ∅ |}.

(** The Rule Engine reports two violations. *)
Definition rejecting_env : Env :=
  {| applyAllRules := λ _ _ _, Returns two_violations;
     createProvider := createProvider stub_env;
     buildTools := buildTools stub_env;
     handleAICallAPIError := stub_translator;
     jsonSchema := jsonSchema stub_env;
     smoothStream := smoothStream stub_env;
     DEFAULT_AI_SDK_PROVIDER := stub_sdk |}.

Definition not_configured : ChainError :=
  {| code := AIProviderConfigError; message := "Provider not configured" |}.

(** Adapter resolution fails with a configuration error. *)
Definition unconfigured_env : Env :=
  {| applyAllRules := applyAllRules stub_env;
     createProvider := λ _, Returns (Result_error not_configured);
     buildTools := buildTools stub_env;
     handleAICallAPIError := stub_translator;
     jsonSchema := jsonSchema stub_env;
     smoothStream := smoothStream stub_env;
     DEFAULT_AI_SDK_PROVIDER := stub_sdk |}.

(** The backend throws. *)
Definition rate_limited_env : Env :=
  {| applyAllRules := applyAllRules stub_env;
     createProvider := createProvider stub_env;
     buildTools := buildTools stub_env;
     handleAICallAPIError := stub_translator;
     jsonSchema := jsonSchema stub_env;
     smoothStream := smoothStream stub_env;
     DEFAULT_AI_SDK_PROVIDER := failing_sdk |}.

Definition openai : ProviderApiKey :=
  {| pk_provider := "openai"; pk_token := "sk-test"; pk_url := None |}.

Definition hi : list Message :=
  [JObj [("role", JStr "user"); ("content", JStr "hi")]].

Definition person_schema : Json :=
  JObj [("type", JStr "object");
        ("properties", JObj [("name", JObj [("type", JStr "string")])])].

(** A free-text request. *)
Definition text_request : AiArgs :=
  {| provider := openai; prompt := None; messages := hi;
     config := {[ "model" := JStr "gpt-test" ]};
     schema := None; output := None; customLanguageModel := None;
     aiSdkProvider := None; abortSignal := Some {| signal_id := 7 |} |}.

(** A schema-constrained request. *)
Definition object_request : AiArgs :=
  {| provider := openai; prompt := None; messages := hi;
     config := {[ "model" := JStr "gpt-test" ]};
     schema := Some person_schema; output := Some output_object;
     customLanguageModel := None;
     aiSdkProvider := None; abortSignal := Some {| signal_id := 7 |} |}.

(** A request that brings its own language model. *)
Definition custom_model : LanguageModel := {| modelId := "mock-model" |}.

Definition custom_request : AiArgs :=
  {| provider := openai; prompt := None; messages := hi;
     config := {[ "model" := JStr "gpt-test" ]};
     schema := None; output := None;
     customLanguageModel := Some custom_model;
     aiSdkProvider := None; abortSignal := None |}.

(** A free-text request whose config carries a schema and a temperature. *)
Definition schema_config_request : AiArgs :=
  {| provider := openai; prompt := None; messages := hi;
     config := {[ "model" := JStr "gpt-test"; "schema" := person_schema;
                  "temperature" := JNum 1 ]};
     schema := None; output := None; customLanguageModel := None;
     aiSdkProvider := None; abortSignal := None |}.

(** The options that the stubs see for [text_request]. *)
Definition text_request_options : gmap string OptValue :=
  <["experimental_transform" := OTransform {| transform_name := "smoothStream" |}]>
    (commonOptions {[ "model" := JStr "gpt-test" ]} {| modelId := "gpt-test" |}
       None hi (Some ∅) (Some {| signal_id := 7 |})).

Definition object_request_options : gmap string OptValue :=
  <["output" := OData (JStr "object")]>
  (<["schema" := OSchema {| schema_json := person_schema |}]>
    (commonOptions {[ "model" := JStr "gpt-test" ]} {| modelId := "gpt-test" |}
       None hi (Some ∅) (Some {| signal_id := 7 |}))).

Definition custom_request_options : gmap string OptValue :=
  <["experimental_transform" := OTransform {| transform_name := "smoothStream" |}]>
    (commonOptions {[ "model" := JStr "gpt-test" ]} custom_model
       None hi (Some ∅) None).

Definition schema_config_options : gmap string OptValue :=
  <["experimental_transform" := OTransform {| transform_name := "smoothStream" |}]>
    (commonOptions (config schema_config_request) {| modelId := "gpt-test" |}
       None hi (Some ∅) None).

(** A request whose config tries to switch telemetry off. *)
Definition telemetry_off_request : AiArgs :=
  {| provider := openai; prompt := None; messages := hi;
     config := {[ "model" := JStr "gpt-test";
                  "experimental_telemetry" := JObj [("isEnabled", JBool false)] ]};
     schema := None; output := None; customLanguageModel := None;
     aiSdkProvider := None; abortSignal := None |}.

Definition telemetry_off_options : gmap string OptValue :=
  <["experimental_transform" := OTransform {| transform_name := "smoothStream" |}]>
    (commonOptions (config telemetry_off_request) {| modelId := "gpt-test" |}
       None hi (Some ∅) None).

(** ** Injecting a backend *)



(** The calls of a run up to the entry point of the backend. *)
Definition calls_before_backend (a : AiArgs) (rule : AppliedRules) : list Call :=
  CallApplyAllRules (pk_provider (provider a)) (messages a) (config a)
  :: CallCreateProvider (createProvider_args a rule)
  :: match customLanguageModel a with
     | Some _ => []
     | None =>
         [CallProviderAdapter (get (rule_config rule) "model")
            (adapter_options (rule_config rule))]
     end
  ++ CallBuildTools (get (rule_config rule) "tools")
  :: match schema a, output a with
     | Some sch, Some _ => [CallJsonSchema sch]
     | _, _ => [CallSmoothStream]
     end.

(** ** Further stubs *)

Definition malformed_tool : ChainError :=
  {| code := AIRunError; message := "Tool schema is malformed" |}.

(** Tool building fails with an error result. *)
Definition broken_tools_env : Env :=
  {| applyAllRules := applyAllRules stub_env;
     createProvider := createProvider stub_env;
     buildTools := λ _, Returns (Result_error malformed_tool);
     handleAICallAPIError := stub_translator;
     jsonSchema := jsonSchema stub_env;
     smoothStream := smoothStream stub_env;
     DEFAULT_AI_SDK_PROVIDER := stub_sdk |}.

Definition goodbye_text : StreamTextResult :=
  {| st_fullStream := [JStr "Bye"];
     st_text := Returns "Bye";
     st_reasoning := Returns JUndefined;
     st_usage := Returns (JObj [("totalTokens", JNum 1)]);
     st_toolCalls := Returns [];
     st_providerMetadata := Returns JUndefined |}.

(** A request that injects its own [streamText]. *)
Definition injected_request : AiArgs :=
  {| provider := openai; prompt := Some "Say bye"; messages := hi;
     config := {[ "model" := JStr "gpt-test";
                  "cacheControl" := JBool true;
                  "providerOptions" := JObj [("openai", JObj [])] ]};
     schema := None; output := None; customLanguageModel := None;
     aiSdkProvider :=
       Some {| partial_streamText := Some (Some (λ _, Returns goodbye_text));
               partial_streamObject := None |};
     abortSignal := None |}.

Definition injected_request_options : gmap string OptValue :=
  <["experimental_transform" := OTransform {| transform_name := "smoothStream" |}]>
    (commonOptions (config injected_request) {| modelId := "gpt-test" |}
       (Some "Say bye") hi (Some ∅) None).

(** A free-text request whose config has [cacheControl: undefined] as an own
    property, and no custom model. *)
Definition undefined_cacheControl_request : AiArgs :=
  {| provider := openai; prompt := None; messages := hi;
     config := {[ "model" := JStr "gpt-test"; "cacheControl" := JUndefined ]};
     schema := None; output := None; customLanguageModel := None;
     aiSdkProvider := None; abortSignal := None |}.

(** A request whose [aiSdkProvider] has [streamText: undefined]. *)
Definition undefined_backend_request : AiArgs :=
  {| provider := openai; prompt := None; messages := hi;
     config := {[ "model" := JStr "gpt-test" ]};
     schema := None; output := None; customLanguageModel := None;
     aiSdkProvider :=
       Some {| partial_streamText := Some None;
               partial_streamObject := None |};
     abortSignal := None |}.

(** ** The monad *)

Ltac unfold_run :=
  unfold ai, ai_try, try_catch, bind, invoke, call, ret, trace, outcome in *;
  cbn [fst snd] in *.

Ltac in_trace H :=
  repeat first
    [ apply elem_of_nil in H; destruct H
    | apply elem_of_cons in H; destruct H as [H | H]
    | apply elem_of_app in H; destruct H as [H | H] ].

Lemma length_pos_nil {A : Type} (l : list A) : ¬ 0 < length l → l = [].
Proof. destruct l; simpl; [done | lia]. Qed.

Lemma outcome_try_catch_returns {A : Type} (m : M A) (h : Exn → M A) r :
  outcome m = Returns r → outcome (try_catch m h) = Returns r.
Proof. destruct m as [t [x|e]]; cbn; congruence. Qed.

Lemma outcome_try_catch_throws {A : Type} (m : M A) (h : Exn → M A) e :
  outcome m = Throws e → outcome (try_catch m h) = outcome (h e).
Proof. destruct m as [t [x|e']]; cbn; [congruence|]. by intros [= ->]. Qed.

Lemma trace_try_catch_prefix {A : Type} (m : M A) (h : Exn → M A) c :
  c ∈ trace m → c ∈ trace (try_catch m h).
Proof.
  destruct m as [t [x|e]]; cbn; [done|]. intros Hc. apply elem_of_app; by left.
Qed.

Lemma trace_bind {A B : Type} (m : M A) (k : A → M B) :
  trace (bind m k)
  = trace m ++ match outcome m with
               | Returns x => trace (k x)
               | Throws _ => []
               end.
Proof. destruct m as [t [x|e]]; cbn; [done|]. by rewrite app_nil_r. Qed.

Lemma outcome_bind {A B : Type} (m : M A) (k : A → M B) :
  outcome (bind m k)
  = match outcome m with
    | Returns x => outcome (k x)
    | Throws e => Throws e
    end.
Proof. by destruct m as [t [x|e]]. Qed.

(** ** Inversion of the calls made by [ai] *)

Lemma dispatch_inv env a c o :
  c ∈ trace (ai env a) → backend_options c = Some o → Dispatch env a c.
Proof.
  intros Hin Hopt. unfold_run.
  destruct (applyAllRules env _ _ _) as [rule|e] eqn:Hrule; cbn in Hin.
  2: { in_trace Hin; subst; discriminate. }
  case_bool_decide as Hlen; cbn in Hin.
  { in_trace Hin; subst; discriminate. }
  apply length_pos_nil in Hlen.
  assert (Hval : validated env a rule) by done.
  fold (createProvider_args a rule) in Hin.
  destruct (createProvider env _) as [[adapter|err]|e] eqn:Hcp; cbn in Hin.
  2,3: in_trace Hin; subst; discriminate.
  assert (Hres : ∀ lm,
    match customLanguageModel a with
    | Some custom => lm = custom
    | None => adapter (get (rule_config rule) "model")
                (adapter_options (rule_config rule)) = Returns lm
    end → resolved env a rule lm) by (intros lm Hlm; by exists adapter).
  destruct (customLanguageModel a) as [lm|] eqn:Hcustom; cbn in Hin;
    [| destruct (adapter _ _) as [lm|e] eqn:Had; cbn in Hin;
       [| in_trace Hin; subst; discriminate ] ].
  all: specialize (Hres lm).
  all: destruct (buildTools env _) as [[tools|err]|e] eqn:Hbt; cbn in Hin;
    [| in_trace Hin; subst; discriminate ..].
  all: destruct (schema a) as [sch|] eqn:Hsch, (output a) as [out|] eqn:Hout;
    cbn in Hin.
  all: try (destruct (jsonSchema env sch) as [s|e] eqn:Hjs; cbn in Hin;
    [ destruct (resolved_streamObject _) as [f|]; [destruct (f _)|];
      cbn in Hin;
      in_trace Hin; subst; try discriminate;
      eapply DispatchObject; eauto
    | in_trace Hin; subst; discriminate ]).
  all: destruct (smoothStream env) as [t|e] eqn:Hsm; cbn in Hin;
    [ destruct (resolved_streamText _) as [f|]; [destruct (f _)|];
      cbn in Hin;
      in_trace Hin; subst; try discriminate;
      eapply DispatchText; eauto
    | in_trace Hin; subst; discriminate ].
Qed.

(** The adapter factory is only called without a custom model, on the model
    identifier and the adapter options of the rule-transformed config. *)
Lemma adapter_call_inv env a model opts :
  CallProviderAdapter model opts ∈ trace (ai env a) →
  customLanguageModel a = None
  ∧ ∃ rule, validated env a rule
      ∧ model = get (rule_config rule) "model"
      ∧ opts = adapter_options (rule_config rule).
Proof.
  intros Hin. unfold_run.
  destruct (applyAllRules env _ _ _) as [rule|e] eqn:Hrule; cbn in Hin.
  2: { in_trace Hin; discriminate. }
  case_bool_decide as Hlen; cbn in Hin.
  { in_trace Hin; discriminate. }
  apply length_pos_nil in Hlen.
  destruct (createProvider env _) as [[adapter|err]|e] eqn:Hcp; cbn in Hin.
  2,3: in_trace Hin; discriminate.
  destruct (customLanguageModel a) as [lm|] eqn:Hcustom; cbn in Hin;
    [| destruct (adapter _ _) as [lm|e] eqn:Had; cbn in Hin ].
  3: { in_trace Hin; try discriminate. simplify_eq. split; [done|].
       by exists rule. }
  all: destruct (buildTools env _) as [[tools|err]|e] eqn:Hbt; cbn in Hin.
  all: try destruct (schema a) as [sch|] eqn:Hsch;
       try destruct (output a) as [out|] eqn:Hout; cbn in Hin.
  all: try (destruct (jsonSchema env sch) as [s|e] eqn:Hjs; cbn in Hin;
            [destruct (resolved_streamObject _) as [f|]; [destruct (f _)|];
             cbn in Hin|]).
  all: try (destruct (smoothStream env) as [t|e] eqn:Hsm; cbn in Hin;
            [destruct (resolved_streamText _) as [f|]; [destruct (f _)|];
             cbn in Hin|]).
  all: in_trace Hin; try discriminate.
  all: simplify_eq; split; [done|]; by exists rule.
Qed.

(** After a clean validation [createProvider] is always called. *)
Lemma createProvider_called env a rule :
  validated env a rule →
  CallCreateProvider (createProvider_args a rule) ∈ trace (ai env a).
Proof.
  intros [Hrule Hnil]. apply trace_try_catch_prefix.
  unfold ai_try. rewrite trace_bind. unfold call at 1 2.
  cbn [trace outcome fst snd]. rewrite Hrule, Hnil.
  rewrite bool_decide_eq_false_2 by (cbn; lia).
  rewrite trace_bind. unfold call at 1. cbn [trace fst]. set_solver.
Qed.

(** An error result of [createProvider] is the result of [ai], and nothing
    is called after it. *)
Lemma createProvider_error env a rule err :
  validated env a rule →
  createProvider env (createProvider_args a rule) = Returns (Result_error err) →
  ai env a =
    ([CallApplyAllRules (pk_provider (provider a)) (messages a) (config a);
      CallCreateProvider (createProvider_args a rule)],
     Returns (Result_error err)).
Proof.
  intros [Hrule Hnil] Hcp.
  unfold ai, ai_try, bind, call, ret, try_catch. rewrite Hrule. cbn.
  rewrite Hnil. cbn. fold (createProvider_args a rule). by rewrite Hcp.
Qed.

(** ** The options object *)

Section CommonOptions.
Variables (cfg : gmap string Json) (lm : LanguageModel)
  (p : option string) (ms : list Message)
  (tools : option (gmap string Tool)) (signal : option AbortSignal).

Local Abbreviation common := (commonOptions cfg lm p ms tools signal).

Local Ltac lookup_common :=
  unfold commonOptions, omit;
  repeat (rewrite lookup_insert_ne by done);
  rewrite ?lookup_insert_eq; try done.

Lemma commonOptions_model : common !! "model" = Some (OModel lm).
Proof. lookup_common. Qed.

Lemma commonOptions_messages : common !! "messages" = Some (OMessages ms).
Proof. lookup_common. Qed.

Lemma commonOptions_abortSignal :
  common !! "abortSignal" = Some (optional OSignal signal).
Proof. lookup_common. Qed.

Lemma commonOptions_telemetry :
  common !! "experimental_telemetry" = Some (OTelemetry true).
Proof. lookup_common. Qed.

Lemma commonOptions_providerOptions :
  common !! "providerOptions" = Some (OData (get cfg "providerOptions")).
Proof. lookup_common. Qed.

Lemma commonOptions_schema : common !! "schema" = None.
Proof.
  lookup_common. by rewrite lookup_fmap, lookup_delete_eq.
Qed.

(** Every other name is read from the config. *)
Lemma commonOptions_config k :
  k ∉ "schema" :: common_keys → common !! k = OData <$> cfg !! k.
Proof.
  intros Hk. unfold commonOptions, omit, common_keys in *.
  repeat (apply not_elem_of_cons in Hk as [? Hk]).
  rewrite !lookup_insert_ne by done.
  by rewrite lookup_fmap, lookup_delete_ne.
Qed.


Lemma commonOptions_tools : common !! "tools" = Some (optional OTools tools).
Proof. lookup_common. Qed.

Lemma commonOptions_prompt :
  common !! "prompt" = Some (optional (λ s, OData (JStr s)) p).
Proof. lookup_common. Qed.
End CommonOptions.

Lemma streamText_options_other common t k :
  k ≠ "experimental_transform" → streamText_options common t !! k = common !! k.
Proof. intros Hk. unfold streamText_options. by rewrite lookup_insert_ne. Qed.

Lemma streamObject_options_other common s out k :
  k ≠ "schema" → k ≠ "output" →
  streamObject_options common s out !! k = common !! k.
Proof.
  intros Hs Ho. unfold streamObject_options. by rewrite !lookup_insert_ne.
Qed.

(** [k] is none of the names in a list given in full. *)
Ltac split_keys H :=
  cbn [app mode_keys] in H; unfold common_keys in H;
  repeat (apply not_elem_of_cons in H as [? H]).

(** ** Exceptions *)

Ltac step_outcome :=
  rewrite outcome_bind; unfold call at 1; cbn [outcome snd].

Lemma languageModel_outcome (a : AiArgs) (cfg : gmap string Json)
    (adapter : ProviderAdapter) (lm : LanguageModel) :
  match customLanguageModel a with
  | Some custom => lm = custom
  | None => adapter (get cfg "model") (adapter_options cfg) = Returns lm
  end →
  outcome (match customLanguageModel a with
           | Some custom => ret custom
           | None =>
               call (CallProviderAdapter (get cfg "model") (adapter_options cfg))
                    (adapter (get cfg "model") (adapter_options cfg))
           end) = Returns lm.
Proof. destruct (customLanguageModel a); by intros ->. Qed.

(** One step of a [bind] whose first computation is a call. *)
Ltac step_trace :=
  rewrite trace_bind; apply elem_of_app; right;
  unfold call at 1; cbn [outcome snd].

(** Conversely, a dispatch whose conditions are met is in the trace, when the
    entry point of the backend is there to be called. *)
Lemma dispatch_reached env a c :
  Dispatch env a c →
  match c with
  | CallStreamObject _ =>
      is_Some (resolved_streamObject
                 (resolve_sdk (DEFAULT_AI_SDK_PROVIDER env) (aiSdkProvider a)))
  | CallStreamText _ =>
      is_Some (resolved_streamText
                 (resolve_sdk (DEFAULT_AI_SDK_PROVIDER env) (aiSdkProvider a)))
  | _ => True
  end →
  c ∈ trace (ai env a).
Proof.
  intros HD Hfn. apply trace_try_catch_prefix. unfold ai_try.
  destruct HD as
    [ rule lm tools sch out s [Hrule Hno] (adapter & Hcp & Hlm) Hbt Hsch Hout Hjs
    | rule lm tools t [Hrule Hno] (adapter & Hcp & Hlm) Hbt Hmode Hsm ];
    destruct Hfn as [f Hf];
    step_trace; rewrite Hrule, Hno;
    rewrite bool_decide_eq_false_2 by (cbn; lia);
    fold (createProvider_args a rule);
    step_trace; rewrite Hcp;
    rewrite trace_bind, (languageModel_outcome _ _ _ _ Hlm);
    apply elem_of_app; right;
    step_trace; rewrite Hbt.
  - rewrite Hsch, Hout. step_trace. rewrite Hjs.
    rewrite trace_bind. apply elem_of_app. left.
    rewrite Hf. apply list_elem_of_here.
  - assert (Hgoal : CallStreamText
        (streamText_options
           (commonOptions (rule_config rule) lm (prompt a)
              (rule_messages rule) tools (abortSignal a)) t)
      ∈ trace
          (let* t := call CallSmoothStream (smoothStream env) in
           let opts :=
             <["experimental_transform" := OTransform t]>
               (commonOptions (rule_config rule) lm (prompt a)
                  (rule_messages rule) tools (abortSignal a)) in
           let* result :=
             invoke "streamText" CallStreamText
               (resolved_streamText
                  (resolve_sdk (DEFAULT_AI_SDK_PROVIDER env) (aiSdkProvider a)))
               opts in
           ret (Result_ok (E := ChainError) (ReturnText
             {| rt_fullStream := st_fullStream result;
                rt_text := st_text result;
                rt_reasoning := st_reasoning result;
                rt_usage := st_usage result;
                rt_toolCalls := st_toolCalls result;
                rt_providerMetadata := st_providerMetadata result;
                rt_type := type_text;
                rt_providerName := pk_provider (provider a) |})))).
    { step_trace. rewrite Hsm. rewrite trace_bind. apply elem_of_app. left.
      rewrite Hf. apply list_elem_of_here. }
    destruct Hmode as [-> | ->]; [| destruct (schema a)]; exact Hgoal.
Qed.

(** An exception of any collaborator leaves the [try] block. *)
Lemma raises_thrown env a e : Raises env a e → outcome (ai_try env a) = Throws e.
Proof.
  intros HR. unfold ai_try.
  assert (Hnil : ∀ rule, rules rule = [] →
            bool_decide (0 < length (rules rule)) = false)
    by (intros rule ->; by apply bool_decide_eq_false_2; cbn; lia).
  destruct HR as
    [ e Hrule
    | rule e [Hrule Hno] Hcp
    | rule adapter e [Hrule Hno] Hcp Hcustom Had
    | rule lm e [Hrule Hno] (adapter & Hcp & Hlm) Hbt
    | rule lm tools sch out e [Hrule Hno] (adapter & Hcp & Hlm) Hbt Hsch Hout Hjs
    | rule lm tools sch out s e [Hrule Hno] (adapter & Hcp & Hlm) Hbt Hsch Hout Hjs Hso
    | rule lm tools e [Hrule Hno] (adapter & Hcp & Hlm) Hbt Hmode Hsm
    | rule lm tools t e [Hrule Hno] (adapter & Hcp & Hlm) Hbt Hmode Hsm Hst ];
    step_outcome; rewrite Hrule; [done|..];
    rewrite (Hnil _ Hno); fold (createProvider_args a rule);
    step_outcome; rewrite Hcp; [done|..].
  - rewrite Hcustom. step_outcome. by rewrite Had.
  - rewrite outcome_bind, (languageModel_outcome _ _ _ _ Hlm). step_outcome. by rewrite Hbt.
  - rewrite outcome_bind, (languageModel_outcome _ _ _ _ Hlm). step_outcome. rewrite Hbt, Hsch, Hout.
    step_outcome. by rewrite Hjs.
  - rewrite outcome_bind, (languageModel_outcome _ _ _ _ Hlm). step_outcome. rewrite Hbt, Hsch, Hout.
    step_outcome. rewrite Hjs. rewrite outcome_bind.
    unfold streamObject_options in Hso. by rewrite Hso.
  - rewrite outcome_bind, (languageModel_outcome _ _ _ _ Hlm). step_outcome. rewrite Hbt.
    destruct Hmode as [-> | ->]; [| destruct (schema a)];
      step_outcome; by rewrite Hsm.
  - rewrite outcome_bind, (languageModel_outcome _ _ _ _ Hlm). step_outcome. rewrite Hbt.
    unfold streamText_options in Hst.
    destruct Hmode as [-> | ->]; [| destruct (schema a)];
      step_outcome; rewrite Hsm; rewrite outcome_bind; by rewrite Hst.
Qed.

(** Conversely, an exception that leaves the [try] block was thrown by a
    collaborator. *)
Lemma thrown_raises env a e : outcome (ai_try env a) = Throws e → Raises env a e.
Proof.
  unfold ai_try. step_outcome.
  destruct (applyAllRules env _ _ _) as [rule|e'] eqn:Hrule.
  2: { intros [= ->]. by apply RaisesApplyAllRules. }
  case_bool_decide as Hlen; [done|]. apply length_pos_nil in Hlen.
  assert (Hval : validated env a rule) by done.
  fold (createProvider_args a rule). step_outcome.
  destruct (createProvider env _) as [[adapter|err]|e'] eqn:Hcp; [|done|].
  2: { intros [= ->]. by eapply RaisesCreateProvider. }
  rewrite outcome_bind.
  destruct (outcome (match customLanguageModel a with Some _ => _ | None => _ end))
    as [lm|e'] eqn:Hlm.
  2: { intros [= ->]. destruct (customLanguageModel a) eqn:Hcustom; [done|].
       by eapply RaisesProviderAdapter. }
  assert (Hres : resolved env a rule lm).
  { exists adapter. split; [done|].
    destruct (customLanguageModel a); cbn in Hlm; congruence. }
  step_outcome.
  destruct (buildTools env _) as [[tools|err]|e'] eqn:Hbt; [|done|].
  2: { intros [= ->]. by eapply RaisesBuildTools. }
  destruct (schema a) as [sch|] eqn:Hsch, (output a) as [out|] eqn:Hout.
  - step_outcome. destruct (jsonSchema env sch) as [s|e'] eqn:Hjs.
    2: { intros [= ->]. by eapply RaisesJsonSchema. }
    rewrite outcome_bind.
    destruct (outcome (invoke _ _ _ _)) eqn:Hso; [done|].
    intros [= ->]. by eapply RaisesStreamObject.
  - step_outcome. destruct (smoothStream env) as [t|e'] eqn:Hsm.
    2: { intros [= ->]. eapply RaisesSmoothStream; eauto. }
    rewrite outcome_bind.
    destruct (outcome (invoke _ _ _ _)) eqn:Hst; [done|].
    intros [= ->]. eapply RaisesStreamText; eauto.
  - step_outcome. destruct (smoothStream env) as [t|e'] eqn:Hsm.
    2: { intros [= ->]. eapply RaisesSmoothStream; eauto. }
    rewrite outcome_bind.
    destruct (outcome (invoke _ _ _ _)) eqn:Hst; [done|].
    intros [= ->]. eapply RaisesStreamText; eauto.
  - step_outcome. destruct (smoothStream env) as [t|e'] eqn:Hsm.
    2: { intros [= ->]. eapply RaisesSmoothStream; eauto. }
    rewrite outcome_bind.
    destruct (outcome (invoke _ _ _ _)) eqn:Hst; [done|].
    intros [= ->]. eapply RaisesStreamText; eauto.
Qed.

(** A success of [ai] is a success of the [try] block when the translator
    only returns errors. *)
Lemma ai_ok_try env a r :
  translates env →
  outcome (ai env a) = Returns (Result_ok r) →
  outcome (ai_try env a) = Returns (Result_ok r).
Proof.
  intros Htr. unfold ai.
  destruct (outcome (ai_try env a)) as [x|e] eqn:Hbody.
  - by rewrite (outcome_try_catch_returns _ _ _ Hbody).
  - rewrite (outcome_try_catch_throws _ _ _ Hbody). cbn.
    destruct (Htr e) as [c ->]. discriminate.
Qed.

(** The result of a successful [try] block. *)
Lemma ai_try_ok_inv env a r :
  outcome (ai_try env a) = Returns (Result_ok r) →
  providerName r = pk_provider (provider a)
  ∧ type r = match schema a, output a with
             | Some _, Some _ => type_object
             | _, _ => type_text
             end.
Proof.
  unfold ai_try. step_outcome.
  destruct (applyAllRules env _ _ _) as [rule|e'] eqn:Hrule; [|done].
  case_bool_decide as Hlen; [done|].
  step_outcome.
  destruct (createProvider env _) as [[adapter|err]|e']; [|done..].
  rewrite outcome_bind.
  destruct (outcome (match customLanguageModel a with Some _ => _ | None => _ end))
    as [lm|e']; [|done].
  step_outcome.
  destruct (buildTools env _) as [[tools|err]|e']; [|done..].
  destruct (schema a) as [sch|], (output a) as [out|].
  - step_outcome. destruct (jsonSchema env sch) as [s|e']; [|done].
    rewrite outcome_bind. destruct (outcome (invoke _ _ _ _)); [|done].
    cbn. by intros [= <-].
  - step_outcome. destruct (smoothStream env) as [t|e']; [|done].
    rewrite outcome_bind. destruct (outcome (invoke _ _ _ _)); [|done].
    cbn. by intros [= <-].
  - step_outcome. destruct (smoothStream env) as [t|e']; [|done].
    rewrite outcome_bind. destruct (outcome (invoke _ _ _ _)); [|done].
    cbn. by intros [= <-].
  - step_outcome. destruct (smoothStream env) as [t|e']; [|done].
    rewrite outcome_bind. destruct (outcome (invoke _ _ _ _)); [|done].
    cbn. by intros [= <-].
Qed.

(** ** Lines of a joined text *)

Lemma lines_single_line s : single_line s → lines s = [s].
Proof.
  induction s as [|c rest IH]; cbn; [done|].
  destruct (is_newline c); cbn; [done|]. intros Hrest. by rewrite IH.
Qed.

Lemma lines_append_newline s t :
  single_line s → lines (s +:+ newline +:+ t) = s :: lines t.
Proof.
  induction s as [|c rest IH]; [done|].
  change (String c rest +:+ newline +:+ t)
    with (String c (rest +:+ newline +:+ t)).
  cbn. destruct (is_newline c); cbn; [done|]. intros Hrest. by rewrite IH.
Qed.

Lemma lines_join xs :
  xs ≠ [] → Forall (λ x, single_line x) xs → lines (join newline xs) = xs.
Proof.
  intros Hne Hall. induction Hall as [|x rest Hx Hrest IH]; [done|].
  destruct rest as [|y rest].
  - by apply lines_single_line.
  - change (join newline (x :: y :: rest))
      with (x +:+ newline +:+ join newline (y :: rest)).
    rewrite lines_append_newline by done. by rewrite IH.
Qed.

Lemma single_line_app s t :
  single_line s → single_line t → single_line (s +:+ t).
Proof.
  induction s as [|c rest IH]; [done|].
  change (String c rest +:+ t) with (String c (rest +:+ t)).
  cbn. destruct (is_newline c); cbn; [done|]. auto.
Qed.

(** ** Rule violations *)

(** C1. When the Rule Engine reports one or more violations, [ai] returns an
    error result of kind [AIRunError]; its message is a header line followed
    by the violation messages joined by newlines, each behind the marker
    ["- "] (one per line when no violation message spans several lines); and
    the only call made is the one to the Rule Engine: no [createProvider], no
    adapter factory, no [streamText] and no [streamObject]. *)
Theorem rule_violations_rejected env a rule :
  applyAllRules env (pk_provider (provider a)) (messages a) (config a)
    = Returns rule →
  rules rule ≠ [] →
  let msg :=
    "There are rule violations:" +:+ newline
    +:+ join newline (map (λ r, "- " +:+ ruleMessage r) (rules rule)) in
  outcome (ai env a)
    = Returns (Result_error {| code := AIRunError; message := msg |})
  ∧ trace (ai env a)
    = [CallApplyAllRules (pk_provider (provider a)) (messages a) (config a)]
  ∧ (Forall (λ r, single_line (ruleMessage r)) (rules rule) →
     lines msg
     = "There are rule violations:"
         :: map (λ r, "- " +:+ ruleMessage r) (rules rule)).
Proof.
  intros Hrule Hne msg.
  assert (Hrun : ai env a =
    ([CallApplyAllRules (pk_provider (provider a)) (messages a) (config a)],
     Returns (Result_error {| code := AIRunError; message := msg |}))).
  { unfold ai, ai_try, try_catch, bind, call. rewrite Hrule.
    rewrite bool_decide_eq_true_2; [done|].
    destruct (rules rule); [done | cbn; lia]. }
  rewrite Hrun. do 2 (split; [done|]).
  intros Hall. subst msg. rewrite lines_append_newline by done.
  f_equal. apply lines_join.
  - by destruct (rules rule).
  - apply Forall_map. eapply Forall_impl; [exact Hall|].
    intros r Hr. by apply single_line_app.
Qed.

Lemma rule_violations_rejected_witness :
  outcome (ai rejecting_env text_request)
  = Returns (Result_error
      {| code := AIRunError;
         message := "There are rule violations:" +:+ newline
           +:+ "- System messages must come first." +:+ newline
           +:+ "- Images are not supported." |})
  ∧ trace (ai rejecting_env text_request)
    = [CallApplyAllRules "openai" hi {[ "model" := JStr "gpt-test" ]}].
Proof.
  destruct (rule_violations_rejected rejecting_env text_request two_violations)
    as (Hout & Htrace & _); [reflexivity | discriminate |].
  split; [exact Hout | exact Htrace].
Defined.

(** ** A plain run *)

(** The free-text scenario of the design document: two chunks, and the text
    they add up to. *)
Example hello_scenario :
  outcome (ai stub_env text_request)
  = Returns (Result_ok (ReturnText
      {| rt_fullStream := [JStr "He"; JStr "llo"];
         rt_text := Returns "Hello";
         rt_reasoning := Returns JUndefined;
         rt_usage := Returns (JObj [("totalTokens", JNum 2)]);
         rt_toolCalls := Returns [];
         rt_providerMetadata := Returns JUndefined;
         rt_type := type_text;
         rt_providerName := "openai" |}))
  ∧ trace (ai stub_env text_request)
    = [CallApplyAllRules "openai" hi {[ "model" := JStr "gpt-test" ]};
       CallCreateProvider
         {| cp_messages := hi; cp_provider := openai; cp_apiKey := "sk-test";
            cp_url := None; cp_config := {[ "model" := JStr "gpt-test" ]} |};
       CallProviderAdapter (JStr "gpt-test")
         {[ "cacheControl" := JBool false; "model" := JStr "gpt-test" ]};
       CallBuildTools JUndefined;
       CallSmoothStream;
       CallStreamText text_request_options].
Proof. split; reflexivity. Qed.

(** ** Exceptions never escape *)

(** C2. [ai] never raises: provided the error translator turns every
    exception into an error result, [ai] always returns a result value, and
    an exception thrown by the Rule Engine, by adapter resolution, by the
    adapter factory, by tool building or by the backend dispatch is handed to
    the translator, whose error result is what [ai] returns. *)
Theorem ai_never_raises env a :
  translates env →
  (∃ r, outcome (ai env a) = Returns r)
  ∧ (∀ e, Raises env a e →
       ∃ c, handleAICallAPIError env e = Returns (Result_error c)
            ∧ outcome (ai env a) = Returns (Result_error c)
            ∧ CallHandleAICallAPIError e ∈ trace (ai env a)).
Proof.
  intros Htr. split.
  - unfold ai. destruct (outcome (ai_try env a)) as [r|e] eqn:Hbody.
    + exists r. by apply outcome_try_catch_returns.
    + destruct (Htr e) as [c Hc]. exists (Result_error c).
      by rewrite (outcome_try_catch_throws _ _ _ Hbody).
  - intros e HR. apply raises_thrown in HR.
    destruct (Htr e) as [c Hc]. exists c. split; [done|]. unfold ai.
    rewrite (outcome_try_catch_throws _ _ _ HR). split; [done|].
    destruct (ai_try env a) as [t [x|e']]; cbn in *; simplify_eq.
    set_solver.
Qed.

Lemma ai_never_raises_witness :
  outcome (ai rate_limited_env text_request)
  = Returns (Result_error {| code := AIRunError; message := "rate limited" |}).
Proof.
  assert (Htr : translates rate_limited_env) by (intros e; by eexists).
  destruct (ai_never_raises rate_limited_env text_request Htr) as [_ Hcatch].
  destruct (Hcatch rate_limited) as (c & Hc & Hout & _).
  - eapply (RaisesStreamText _ _
      {| rules := []; rule_messages := hi;
         rule_config := {[ "model" := JStr "gpt-test" ]} |}
      {| modelId := "gpt-test" |} (Some ∅)
      {| transform_name := "smoothStream" |}).
    + split; reflexivity.
    + exists stub_adapter. split; reflexivity.
    + reflexivity.
    + left. reflexivity.
    + reflexivity.
    + reflexivity.
  - injection Hc as <-. exact Hout.
Defined.

(** ** Generation mode *)

(** C3. A success result of [ai] has type ['object'] exactly when the request
    has both a schema and an output selector, and type ['text'] otherwise; its
    [providerName] is the provider type of the request.  The two modes
    exclude each other: a request with both never reaches [streamText], any
    other request never reaches [streamObject]. *)
Theorem generation_mode_binary env a r :
  translates env →
  outcome (ai env a) = Returns (Result_ok r) →
  providerName r = pk_provider (provider a)
  ∧ match schema a, output a with
    | Some _, Some _ =>
        type r = type_object ∧ ∀ o, CallStreamText o ∉ trace (ai env a)
    | _, _ =>
        type r = type_text ∧ ∀ o, CallStreamObject o ∉ trace (ai env a)
    end.
Proof.
  intros Htr Hok. apply ai_ok_try in Hok; [|done].
  apply ai_try_ok_inv in Hok as [Hname Htype]. split; [done|].
  assert (Htext : ∀ o, CallStreamText o ∈ trace (ai env a) →
            schema a = None ∨ output a = None).
  { intros o Hin. apply (dispatch_inv _ _ _ o) in Hin; [|done].
    by inversion Hin. }
  assert (Hobj : ∀ o, CallStreamObject o ∈ trace (ai env a) →
            is_Some (schema a) ∧ is_Some (output a)).
  { intros o Hin. apply (dispatch_inv _ _ _ o) in Hin; [|done].
    inversion Hin; subst. split; by eexists. }
  destruct (schema a) as [sch|], (output a) as [out|];
    (split; [done|]); intros o Hin.
  - apply Htext in Hin as [?|?]; discriminate.
  - apply Hobj in Hin as [_ [? ?]]; discriminate.
  - apply Hobj in Hin as [[? ?] _]; discriminate.
  - apply Hobj in Hin as [[? ?] _]; discriminate.
Qed.

Lemma generation_mode_binary_witness :
  (∃ r, outcome (ai stub_env object_request) = Returns (Result_ok r)
        ∧ type r = type_object ∧ providerName r = "openai")
  ∧ (∃ r, outcome (ai stub_env text_request) = Returns (Result_ok r)
          ∧ type r = type_text ∧ providerName r = "openai").
Proof.
  assert (Htr : translates stub_env) by (intros e; by eexists).
  split; eexists; (split; [reflexivity|]).
  - destruct (generation_mode_binary stub_env object_request _ Htr eq_refl)
      as (Hname & Htype & _). split; [exact Htype | exact Hname].
  - destruct (generation_mode_binary stub_env text_request _ Htr eq_refl)
      as (Hname & Htype & _). split; [exact Htype | exact Hname].
Defined.

(** ** A caller-supplied language model *)

(** C4, as stated, fails: a request that brings its own language model still
    has [createProvider] called, and the configuration error that
    [createProvider] returns is the result of [ai]. *)
Lemma custom_model_consults_createProvider :
  customLanguageModel custom_request = Some custom_model
  ∧ ai unconfigured_env custom_request
    = ([CallApplyAllRules "openai" hi {[ "model" := JStr "gpt-test" ]};
        CallCreateProvider
          {| cp_messages := hi; cp_provider := openai; cp_apiKey := "sk-test";
             cp_url := None; cp_config := {[ "model" := JStr "gpt-test" ]} |}],
       Returns (Result_error not_configured))
  ∧ ∃ r, outcome (ai stub_env custom_request) = Returns (Result_ok r).
Proof. split; [reflexivity|]. split; [reflexivity|]. eexists. reflexivity. Qed.

(** C4, amended. For a request that brings its own language model the
    adapter factory is never invoked and every call to the streaming backend
    receives the custom handle itself as [model]; [createProvider] is still
    called once validation passed, and an error result of [createProvider] is
    returned as the result of [ai] before the handle is used. *)
Theorem custom_model_used_verbatim env a custom :
  customLanguageModel a = Some custom →
  (∀ model opts, CallProviderAdapter model opts ∉ trace (ai env a))
  ∧ (∀ c o, c ∈ trace (ai env a) → backend_options c = Some o →
       o !! "model" = Some (OModel custom))
  ∧ (∀ rule, validated env a rule →
       CallCreateProvider (createProvider_args a rule) ∈ trace (ai env a)
       ∧ ∀ err,
           createProvider env (createProvider_args a rule)
             = Returns (Result_error err) →
           outcome (ai env a) = Returns (Result_error err)
           ∧ ∀ c, c ∈ trace (ai env a) → backend_options c = None).
Proof.
  intros Hcustom. split; [|split].
  - intros model opts Hin. apply adapter_call_inv in Hin as [Hnone _].
    congruence.
  - intros c o Hin Hopt. pose proof (dispatch_inv _ _ _ _ Hin Hopt) as HD.
    destruct HD as [rule lm tools sch out s _ (adapter & _ & Hlm) _ _ _ _
                   |rule lm tools t _ (adapter & _ & Hlm) _ _ _];
      rewrite Hcustom in Hlm; subst lm; cbn in Hopt; simplify_eq.
    + rewrite streamObject_options_other by done. apply commonOptions_model.
    + rewrite streamText_options_other by done. apply commonOptions_model.
  - intros rule Hval. split; [by apply createProvider_called|].
    intros err Hcp. rewrite (createProvider_error _ _ _ _ Hval Hcp).
    split; [done|]. intros c Hin. cbn in Hin. in_trace Hin; by subst.
Qed.

Lemma custom_model_used_verbatim_witness :
  trace (ai stub_env custom_request) !! 4
    = Some (CallStreamText custom_request_options)
  ∧ custom_request_options !! "model" = Some (OModel custom_model).
Proof.
  destruct (custom_model_used_verbatim stub_env custom_request custom_model
              eq_refl) as (_ & Hmodel & _).
  split; [reflexivity|].
  apply (Hmodel (CallStreamText custom_request_options)); [|reflexivity].
  apply (list_elem_of_lookup_2 _ 4). reflexivity.
Defined.

(** ** What reaches the streaming backend *)

(** C5, as stated, fails: of the config produced by the Rule Engine, the
    field [schema] is removed, the field [model] is replaced by the language
    model handle, and fields such as [prompt] are added. *)
Lemma config_not_passed_unchanged :
  ∃ o, trace (ai stub_env schema_config_request) !! 5 = Some (CallStreamText o)
       ∧ config schema_config_request !! "schema" = Some person_schema
       ∧ o !! "schema" = None
       ∧ config schema_config_request !! "model" = Some (JStr "gpt-test")
       ∧ o !! "model" = Some (OModel {| modelId := "gpt-test" |})
       ∧ config schema_config_request !! "prompt" = None
       ∧ o !! "prompt" = Some (OData JUndefined).
Proof. eexists. repeat split; reflexivity. Qed.

(** C5, amended. In every call to the streaming backend the messages are the
    ones produced by the Rule Engine, [providerOptions] is the one of the
    rule-transformed config, and every other config field reaches the backend
    with its value, except [schema] (removed), [model] and [tools] (replaced
    by the resolved handle and the built tools) and the names that the
    Orchestrator sets itself. *)
Theorem rule_output_passed_through env a c o rule :
  c ∈ trace (ai env a) →
  backend_options c = Some o →
  applyAllRules env (pk_provider (provider a)) (messages a) (config a)
    = Returns rule →
  o !! "messages" = Some (OMessages (rule_messages rule))
  ∧ o !! "providerOptions"
    = Some (OData (default JUndefined (rule_config rule !! "providerOptions")))
  ∧ (∀ k, k ∉ "schema" :: common_keys ++ mode_keys c →
          o !! k = OData <$> rule_config rule !! k)
  ∧ (∀ lm, resolved env a rule lm → o !! "model" = Some (OModel lm))
  ∧ (∀ tools,
       buildTools env (get (rule_config rule) "tools")
         = Returns (Result_ok tools) →
       o !! "tools" = Some (optional OTools tools))
  ∧ (mode_keys c = ["experimental_transform"] → o !! "schema" = None).
Proof.
  intros Hin Hopt Hrule. pose proof (dispatch_inv _ _ _ _ Hin Hopt) as HD.
  assert (Hlm : ∀ lm lm', resolved env a rule lm → resolved env a rule lm' →
            lm' = lm).
  { intros lm lm' (ad & Hcp & Hlm) (ad' & Hcp' & Hlm').
    rewrite Hcp in Hcp'. injection Hcp' as <-.
    destruct (customLanguageModel a); congruence. }
  destruct HD as [rule' lm tools sch out s [Hrule' _] Hres Hbt _ _ _
                 |rule' lm tools t [Hrule' _] Hres Hbt _ _];
    rewrite Hrule in Hrule'; injection Hrule' as <-;
    cbn in Hopt; injection Hopt as <-.
  - rewrite !streamObject_options_other by done.
    split; [apply commonOptions_messages|].
    split; [apply commonOptions_providerOptions|].
    split; [|split; [|split; [|done]]].
    + intros k Hk. assert (Hk' := Hk). split_keys Hk'.
      rewrite streamObject_options_other by done.
      apply commonOptions_config. unfold common_keys.
      repeat (apply not_elem_of_cons; split; [done|]). apply not_elem_of_nil.
    + intros lm' Hres'. rewrite (Hlm _ _ Hres Hres').
      apply commonOptions_model.
    + intros tools' Hbt'. rewrite Hbt in Hbt'. injection Hbt' as <-.
      apply commonOptions_tools.
  - rewrite !streamText_options_other by done.
    split; [apply commonOptions_messages|].
    split; [apply commonOptions_providerOptions|].
    split; [|split; [|split]].
    + intros k Hk. assert (Hk' := Hk). split_keys Hk'.
      rewrite streamText_options_other by done.
      apply commonOptions_config. unfold common_keys.
      repeat (apply not_elem_of_cons; split; [done|]). apply not_elem_of_nil.
    + intros lm' Hres'. rewrite (Hlm _ _ Hres Hres').
      apply commonOptions_model.
    + intros tools' Hbt'. rewrite Hbt in Hbt'. injection Hbt' as <-.
      apply commonOptions_tools.
    + intros _. apply commonOptions_schema.
Qed.

Lemma rule_output_passed_through_witness :
  schema_config_options !! "messages" = Some (OMessages hi)
  ∧ schema_config_options !! "temperature" = Some (OData (JNum 1)).
Proof.
  destruct (rule_output_passed_through stub_env schema_config_request
              (CallStreamText schema_config_options) schema_config_options
              {| rules := []; rule_messages := hi;
                 rule_config := config schema_config_request |})
    as (Hms & _ & Hcfg & _).
  - apply (list_elem_of_lookup_2 _ 5). reflexivity.
  - reflexivity.
  - reflexivity.
  - split; [exact Hms|]. apply (Hcfg "temperature").
    cbn [app mode_keys]. unfold common_keys.
    repeat (apply not_elem_of_cons; split; [discriminate|]).
    apply not_elem_of_nil.
Defined.

(** ** The token-smoothing transform *)



(** ** The schema of a structured call *)

(** C7, as stated, fails: the config field [model] is not left intact in the
    options of the structured call, it is replaced by the language model
    handle. *)
Lemma model_field_not_left_intact :
  trace (ai stub_env object_request) !! 5
    = Some (CallStreamObject object_request_options)
  ∧ config object_request !! "model" = Some (JStr "gpt-test")
  ∧ object_request_options !! "model"
    = Some (OModel {| modelId := "gpt-test" |})
  ∧ object_request_options !! "model" ≠ Some (OData (JStr "gpt-test")).
Proof. repeat split; try reflexivity. discriminate. Qed.

(** C7, amended. The options of a call to [streamObject] are the common
    options, which have no [schema] property whatever the config holds,
    extended with [schema], the request's schema wrapped by [jsonSchema],
    and with [output], the request's output selector; every config field
    other than [schema], [model] and [tools] (and than the names the
    Orchestrator sets itself) is in the options with its value. *)
Theorem schema_stripped_from_options env a o :
  CallStreamObject o ∈ trace (ai env a) →
  ∃ rule lm tools sch out s,
    validated env a rule
    ∧ resolved env a rule lm
    ∧ buildTools env (get (rule_config rule) "tools")
      = Returns (Result_ok tools)
    ∧ schema a = Some sch ∧ output a = Some out
    ∧ jsonSchema env sch = Returns s
    ∧ let common :=
        commonOptions (rule_config rule) lm (prompt a) (rule_messages rule)
          tools (abortSignal a) in
      common !! "schema" = None
      ∧ o = <["output" := OData (JStr (ObjectOutput_string out))]>
              (<["schema" := OSchema s]> common)
      ∧ o !! "schema" = Some (OSchema s)
      ∧ o !! "output" = Some (OData (JStr (ObjectOutput_string out)))
      ∧ ∀ k v, rule_config rule !! k = Some v → k ∉ replaced_keys →
               o !! k = Some (OData v).
Proof.
  intros Hin. apply (dispatch_inv _ _ _ o) in Hin; [|done].
  inversion Hin as [rule lm tools sch out s Hval Hres Hbt Hsch Hout Hjs|];
    subst.
  exists rule, lm, tools, sch, out, s.
  do 6 (split; [done|]). cbn zeta. split; [apply commonOptions_schema|].
  split; [done|]. unfold streamObject_options.
  split; [by rewrite lookup_insert_ne, lookup_insert_eq|].
  split; [by rewrite lookup_insert_eq|].
  intros k v Hk Hnot. unfold replaced_keys in Hnot.
  repeat (apply not_elem_of_cons in Hnot as [? Hnot]).
  rewrite !lookup_insert_ne by done.
  destruct (decide (k = "providerOptions")) as [->|Hpo].
  - rewrite commonOptions_providerOptions. unfold get. by rewrite Hk.
  - rewrite commonOptions_config, Hk; [done|]. unfold common_keys.
    repeat (apply not_elem_of_cons; split; [done|]). apply not_elem_of_nil.
Qed.

Lemma schema_stripped_from_options_witness :
  object_request_options !! "schema"
    = Some (OSchema {| schema_json := person_schema |})
  ∧ object_request_options !! "output" = Some (OData (JStr "object")).
Proof.
  destruct (schema_stripped_from_options stub_env object_request
              object_request_options)
    as (rule & lm & tools & sch & out & s & _ & _ & _ & Hsch & Hout & Hjs
        & _ & _ & Hs & Ho & _).
  - apply (list_elem_of_lookup_2 _ 5). reflexivity.
  - injection Hsch as <-. injection Hout as <-. injection Hjs as <-.
    split; [exact Hs | exact Ho].
Defined.

(** ** Cancellation and telemetry *)

(** C8. Every call to the streaming backend, [streamText] and [streamObject]
    alike, receives as [abortSignal] the signal of the request itself, and
    [undefined] when the request has none. *)
Theorem abortSignal_passed_unchanged env a c o :
  c ∈ trace (ai env a) →
  backend_options c = Some o →
  o !! "abortSignal"
  = Some match abortSignal a with
         | Some signal => OSignal signal
         | None => OData JUndefined
         end.
Proof.
  intros Hin Hopt. pose proof (dispatch_inv _ _ _ _ Hin Hopt) as HD.
  destruct HD; cbn in Hopt; injection Hopt as <-.
  - rewrite streamObject_options_other by done.
    rewrite commonOptions_abortSignal. by destruct (abortSignal a).
  - rewrite streamText_options_other by done.
    rewrite commonOptions_abortSignal. by destruct (abortSignal a).
Qed.

Lemma abortSignal_passed_unchanged_witness :
  text_request_options !! "abortSignal" = Some (OSignal {| signal_id := 7 |})
  ∧ object_request_options !! "abortSignal"
    = Some (OSignal {| signal_id := 7 |})
  ∧ custom_request_options !! "abortSignal" = Some (OData JUndefined).
Proof.
  split; [|split].
  - apply (abortSignal_passed_unchanged stub_env text_request
             (CallStreamText text_request_options)); [|reflexivity].
    apply (list_elem_of_lookup_2 _ 5). reflexivity.
  - apply (abortSignal_passed_unchanged stub_env object_request
             (CallStreamObject object_request_options)); [|reflexivity].
    apply (list_elem_of_lookup_2 _ 5). reflexivity.
  - apply (abortSignal_passed_unchanged stub_env custom_request
             (CallStreamText custom_request_options)); [|reflexivity].
    apply (list_elem_of_lookup_2 _ 4). reflexivity.
Defined.

(** C9. Every call to the streaming backend is issued with
    [experimental_telemetry: { isEnabled: true }], whatever the request and
    the config hold. *)
Theorem telemetry_always_enabled env a c o :
  c ∈ trace (ai env a) →
  backend_options c = Some o →
  o !! "experimental_telemetry" = Some (OTelemetry true).
Proof.
  intros Hin Hopt. pose proof (dispatch_inv _ _ _ _ Hin Hopt) as HD.
  destruct HD; cbn in Hopt; injection Hopt as <-.
  - rewrite streamObject_options_other by done. apply commonOptions_telemetry.
  - rewrite streamText_options_other by done. apply commonOptions_telemetry.
Qed.

Lemma telemetry_always_enabled_witness :
  telemetry_off_options !! "experimental_telemetry" = Some (OTelemetry true).
Proof.
  apply (telemetry_always_enabled stub_env telemetry_off_request
           (CallStreamText telemetry_off_options)); [|reflexivity].
  apply (list_elem_of_lookup_2 _ 5). reflexivity.
Defined.

(** ** The options of the adapter factory *)

Lemma adapter_options_absent (cfg : gmap string Json) :
  cfg !! "cacheControl" = None →
  adapter_options cfg !! "cacheControl" = Some (JBool false).
Proof.
  intros Hnone. unfold adapter_options, spread, omit, get.
  rewrite lookup_union_r by (by rewrite lookup_delete_ne).
  by rewrite Hnone, lookup_singleton_eq.
Qed.

(** An own property of the config wins over the default, whatever it holds:
    the spread comes after [cacheControl] in the object literal. *)
Lemma adapter_options_own (cfg : gmap string Json) v :
  cfg !! "cacheControl" = Some v →
  adapter_options cfg !! "cacheControl" = Some v.
Proof.
  intros Hsome. unfold adapter_options, spread, omit.
  apply lookup_union_Some_l. by rewrite lookup_delete_ne.
Qed.

Lemma adapter_options_providerOptions (cfg : gmap string Json) :
  adapter_options cfg !! "providerOptions" = None.
Proof.
  unfold adapter_options, spread, omit.
  rewrite lookup_union_r by apply lookup_delete_eq.
  by rewrite lookup_singleton_ne.
Qed.

Lemma adapter_options_other (cfg : gmap string Json) k :
  k ≠ "cacheControl" → k ≠ "providerOptions" →
  adapter_options cfg !! k = cfg !! k.
Proof.
  intros Hcc Hpo. unfold adapter_options, spread, omit.
  rewrite lookup_union, lookup_delete_ne, lookup_singleton_ne by done.
  by destruct (cfg !! k).
Qed.

(** Without a custom model the adapter factory is called. *)
Lemma adapter_called env a rule providerAdapter :
  validated env a rule →
  createProvider env (createProvider_args a rule)
    = Returns (Result_ok providerAdapter) →
  customLanguageModel a = None →
  CallProviderAdapter (get (rule_config rule) "model")
    (adapter_options (rule_config rule)) ∈ trace (ai env a).
Proof.
  intros [Hrule Hnil] Hcp Hcustom. apply trace_try_catch_prefix.
  unfold ai_try. rewrite trace_bind. unfold call at 1 2.
  cbn [trace outcome fst snd]. rewrite Hrule, Hnil.
  rewrite bool_decide_eq_false_2 by (cbn; lia).
  rewrite trace_bind. unfold call at 1 2. cbn [trace outcome fst snd].
  fold (createProvider_args a rule). rewrite Hcp, Hcustom.
  rewrite trace_bind. unfold call at 1. cbn [trace fst]. set_solver.
Qed.

(** The default applies to a config that has no [cacheControl] property at
    all: when no custom model is supplied and the rule-transformed config
    lacks the property, the adapter factory is called, and every call to it
    receives [cacheControl: false]. *)
Theorem cacheControl_defaults_to_false env a rule providerAdapter :
  validated env a rule →
  createProvider env (createProvider_args a rule)
    = Returns (Result_ok providerAdapter) →
  customLanguageModel a = None →
  rule_config rule !! "cacheControl" = None →
  (∃ opts,
     CallProviderAdapter (get (rule_config rule) "model") opts
       ∈ trace (ai env a))
  ∧ ∀ model opts,
      CallProviderAdapter model opts ∈ trace (ai env a) →
      opts !! "cacheControl" = Some (JBool false).
Proof.
  intros Hval Hcp Hcustom Hnone. split.
  - eexists. by eapply adapter_called.
  - intros model opts Hin.
    apply adapter_call_inv in Hin as (_ & rule' & [Hrule' _] & _ & ->).
    destruct Hval as [Hrule _]. rewrite Hrule in Hrule'.
    injection Hrule' as <-. by apply adapter_options_absent.
Qed.

Lemma cacheControl_defaults_to_false_witness :
  trace (ai stub_env text_request) !! 2
    = Some (CallProviderAdapter (JStr "gpt-test")
              {[ "cacheControl" := JBool false; "model" := JStr "gpt-test" ]})
  ∧ ∀ model opts,
      CallProviderAdapter model opts ∈ trace (ai stub_env text_request) →
      opts !! "cacheControl" = Some (JBool false).
Proof.
  split; [reflexivity|].
  apply (cacheControl_defaults_to_false stub_env text_request
           {| rules := []; rule_messages := hi;
              rule_config := {[ "model" := JStr "gpt-test" ]} |}
           stub_adapter).
  - split; reflexivity.
  - reflexivity.
  - reflexivity.
  - reflexivity.
Defined.

(** An own [cacheControl] property that holds [undefined] is handed to the
    adapter factory as it is. *)
Example cacheControl_own_undefined :
  adapter_options {[ "model" := JStr "gpt-test"; "cacheControl" := JUndefined ]}
    !! "cacheControl" = Some JUndefined.
Proof. reflexivity. Qed.

(** C10. The adapter factory is meant to receive [cacheControl: false]
    whenever the config gives no cache-control flag, never [undefined]: that
    is what [config.cacheControl ?? false] computes.  It does not hold for a
    config whose [cacheControl] is an own property holding [undefined]: the
    default evaluates to [false], but the spread of the config, which comes
    after it in the object literal, puts [undefined] back, and the factory is
    called with [cacheControl: undefined]. *)
Theorem undefined_cacheControl_reaches_factory :
  customLanguageModel undefined_cacheControl_request = None
  ∧ get (config undefined_cacheControl_request) "cacheControl" = JUndefined
  ∧ nullish_coalesce
      (get (config undefined_cacheControl_request) "cacheControl")
      (JBool false) = JBool false
  ∧ trace (ai stub_env undefined_cacheControl_request) !! 2
    = Some (CallProviderAdapter (JStr "gpt-test")
              {[ "cacheControl" := JUndefined; "model" := JStr "gpt-test" ]})
  ∧ ∀ model opts,
      CallProviderAdapter model opts
        ∈ trace (ai stub_env undefined_cacheControl_request) →
      opts !! "cacheControl" = Some JUndefined
      ∧ opts !! "cacheControl" ≠ Some (JBool false).
Proof.
  do 4 (split; [reflexivity|]).
  intros model opts Hin.
  apply adapter_call_inv in Hin as (_ & rule & [Hrule _] & _ & ->).
  injection Hrule as <-. split; [reflexivity | discriminate].
Qed.

(** An [aiSdkProvider] whose [streamText] property holds [undefined] makes
    the call site throw inside the [try] block: nothing reaches a backend and
    the translator's error is returned. *)
Example undefined_streamText_is_caught :
  ai stub_env
     {| provider := openai; prompt := None; messages := hi;
        config := {[ "model" := JStr "gpt-test" ]};
        schema := None; output := None; customLanguageModel := None;
        aiSdkProvider :=
          Some {| partial_streamText := Some None;
                  partial_streamObject := None |};
        abortSignal := None |}
  = ([CallApplyAllRules "openai" hi {[ "model" := JStr "gpt-test" ]};
      CallCreateProvider
        {| cp_messages := hi; cp_provider := openai; cp_apiKey := "sk-test";
           cp_url := None; cp_config := {[ "model" := JStr "gpt-test" ]} |};
      CallProviderAdapter (JStr "gpt-test")
        {[ "cacheControl" := JBool false; "model" := JStr "gpt-test" ]};
      CallBuildTools JUndefined;
      CallSmoothStream;
      CallHandleAICallAPIError (not_a_function "streamText")],
     Returns (Result_error
       {| code := AIRunError; message := "streamText is not a function" |})).
Proof. reflexivity. Qed.

(** * Further properties of [ai] *)

(** ** Error results of the collaborators *)

(** X1. When [createProvider] returns an error result, [ai] returns that very
    error: it is not handed to the translator, and after the Rule Engine and
    [createProvider] nothing is called, neither the adapter factory nor
    [buildTools] nor the backend. *)
Theorem createProvider_error_returned env a rule err :
  validated env a rule →
  createProvider env (createProvider_args a rule) = Returns (Result_error err) →
  outcome (ai env a) = Returns (Result_error err)
  ∧ trace (ai env a)
    = [CallApplyAllRules (pk_provider (provider a)) (messages a) (config a);
       CallCreateProvider (createProvider_args a rule)].
Proof.
  intros Hval Hcp. by rewrite (createProvider_error _ _ _ _ Hval Hcp).
Qed.

Lemma createProvider_error_returned_witness :
  outcome (ai unconfigured_env object_request)
    = Returns (Result_error not_configured)
  ∧ length (trace (ai unconfigured_env object_request)) = 2.
Proof.
  destruct (createProvider_error_returned unconfigured_env object_request
              {| rules := []; rule_messages := hi;
                 rule_config := config object_request |} not_configured)
    as [Hout Htrace].
  - split; reflexivity.
  - reflexivity.
  - split; [exact Hout|]. rewrite Htrace. reflexivity.
Defined.

(** X2. When [buildTools] returns an error result, [ai] returns that very
    error, and [buildTools] is the last call: [jsonSchema], [smoothStream],
    the backend and the translator are not called. *)
Theorem buildTools_error_returned env a rule lm err :
  validated env a rule →
  resolved env a rule lm →
  buildTools env (get (rule_config rule) "tools") = Returns (Result_error err) →
  outcome (ai env a) = Returns (Result_error err)
  ∧ trace (ai env a)
    = CallApplyAllRules (pk_provider (provider a)) (messages a) (config a)
      :: CallCreateProvider (createProvider_args a rule)
      :: match customLanguageModel a with
         | Some _ => []
         | None =>
             [CallProviderAdapter (get (rule_config rule) "model")
                (adapter_options (rule_config rule))]
         end
      ++ [CallBuildTools (get (rule_config rule) "tools")].
Proof.
  intros [Hrule Hnil] (adapter & Hcp & Hlm) Hbt. unfold_run.
  rewrite Hrule, Hnil. rewrite bool_decide_eq_false_2 by (cbn; lia).
  fold (createProvider_args a rule). rewrite Hcp.
  destruct (customLanguageModel a) as [custom|]; [subst lm | rewrite Hlm];
    by rewrite Hbt.
Qed.

Lemma buildTools_error_returned_witness :
  outcome (ai broken_tools_env text_request)
    = Returns (Result_error malformed_tool)
  ∧ last (trace (ai broken_tools_env text_request))
    = Some (CallBuildTools JUndefined).
Proof.
  destruct (buildTools_error_returned broken_tools_env text_request
              {| rules := []; rule_messages := hi;
                 rule_config := config text_request |}
              {| modelId := "gpt-test" |} malformed_tool)
    as [Hout Htrace].
  - split; reflexivity.
  - exists stub_adapter. split; reflexivity.
  - reflexivity.
  - split; [exact Hout|]. rewrite Htrace. reflexivity.
Defined.

(** ** The order of the calls *)

(** X3. A run of [ai] calls the backend at most once, and in a fixed order:
    when a call to [streamText] or [streamObject] is made, the calls before
    it are, in this order, the Rule Engine, [createProvider], the adapter
    factory (unless a custom model is supplied), [buildTools], and then
    [jsonSchema] on the request's schema (structured mode) or [smoothStream]
    (free-text mode); after it comes nothing, or the translator alone. *)
Theorem backend_called_once_in_order env a c o :
  c ∈ trace (ai env a) →
  backend_options c = Some o →
  ∃ rule post,
    validated env a rule
    ∧ trace (ai env a) = calls_before_backend a rule ++ c :: post
    ∧ (post = [] ∨ ∃ e, post = [CallHandleAICallAPIError e]).
Proof.
  intros Hin Hopt. unfold calls_before_backend. unfold_run.
  destruct (applyAllRules env _ _ _) as [rule|e] eqn:Hrule; cbn in *.
  2: { in_trace Hin; subst; discriminate. }
  case_bool_decide as Hlen; cbn in *.
  { in_trace Hin; subst; discriminate. }
  apply length_pos_nil in Hlen.
  assert (Hval : validated env a rule) by done.
  fold (createProvider_args a rule) in *.
  destruct (createProvider env _) as [[adapter|err]|e]; cbn in *.
  2,3: in_trace Hin; subst; discriminate.
  destruct (customLanguageModel a) as [lm|]; cbn in *;
    [| destruct (adapter _ _) as [lm|e]; cbn in *;
       [| in_trace Hin; subst; discriminate ] ].
  all: destruct (buildTools env _) as [[tools|err]|e]; cbn in *;
    [| in_trace Hin; subst; discriminate ..].
  all: destruct (schema a) as [sch|], (output a) as [out|]; cbn in *.
  all: try (destruct (jsonSchema env sch) as [s|e]; cbn in *;
    [ destruct (resolved_streamObject _) as [f|]; [destruct (f _)|];
      cbn in *;
      in_trace Hin; subst; try discriminate;
      eexists rule, _; (split; [done|]); (split; [reflexivity|]); eauto
    | in_trace Hin; subst; discriminate ]).
  all: destruct (smoothStream env) as [t|e]; cbn in *;
    [ destruct (resolved_streamText _) as [f|]; [destruct (f _)|];
      cbn in *;
      in_trace Hin; subst; try discriminate;
      eexists rule, _; (split; [done|]); (split; [reflexivity|]); eauto
    | in_trace Hin; subst; discriminate ].
Qed.

Lemma backend_called_once_in_order_witness :
  ∃ rule post,
    validated stub_env text_request rule
    ∧ trace (ai stub_env text_request)
      = calls_before_backend text_request rule
        ++ CallStreamText text_request_options :: post
    ∧ (post = [] ∨ ∃ e, post = [CallHandleAICallAPIError e]).
Proof.
  apply (backend_called_once_in_order stub_env text_request
           (CallStreamText text_request_options) text_request_options).
  - apply (list_elem_of_lookup_2 _ 5). reflexivity.
  - reflexivity.
Defined.

(** ** What a success carries *)

(** X4. A success result of [ai] is built from the value returned by the one
    backend call of the run: the call is in the trace, with the options
    recorded there, and the stream and every eventual field of the result are
    the fields of that value. *)
Theorem success_carries_backend_result env a r :
  translates env →
  outcome (ai env a) = Returns (Result_ok r) →
  match r with
  | ReturnObject ro =>
      ∃ f o res,
        resolved_streamObject
          (resolve_sdk (DEFAULT_AI_SDK_PROVIDER env) (aiSdkProvider a)) = Some f
        ∧ CallStreamObject o ∈ trace (ai env a)
        ∧ f o = Returns res
        ∧ ro_fullStream ro = so_fullStream res
        ∧ ro_object ro = so_object res
        ∧ ro_usage ro = so_usage res
        ∧ ro_providerMetadata ro = so_providerMetadata res
  | ReturnText rt =>
      ∃ f o res,
        resolved_streamText
          (resolve_sdk (DEFAULT_AI_SDK_PROVIDER env) (aiSdkProvider a)) = Some f
        ∧ CallStreamText o ∈ trace (ai env a)
        ∧ f o = Returns res
        ∧ rt_fullStream rt = st_fullStream res
        ∧ rt_text rt = st_text res
        ∧ rt_reasoning rt = st_reasoning res
        ∧ rt_usage rt = st_usage res
        ∧ rt_toolCalls rt = st_toolCalls res
        ∧ rt_providerMetadata rt = st_providerMetadata res
  end.
Proof.
  intros Htr Hok. unfold_run.
  assert (Hh : ∀ e, (handleAICallAPIError env e) ≠ Returns (Result_ok r)).
  { intros e. destruct (Htr e) as [c ->]. discriminate. }
  destruct (applyAllRules env _ _ _) as [rule|e]; cbn in *;
    [| by apply Hh in Hok].
  case_bool_decide; cbn in *; [discriminate|].
  destruct (createProvider env _) as [[adapter|err]|e]; cbn in *;
    [| discriminate | by apply Hh in Hok].
  destruct (customLanguageModel a) as [lm|]; cbn in *;
    [| destruct (adapter _ _) as [lm|e]; cbn in *; [| by apply Hh in Hok] ].
  all: destruct (buildTools env _) as [[tools|err]|e]; cbn in *;
    [| discriminate | by apply Hh in Hok].
  all: destruct (schema a) as [sch|], (output a) as [out|]; cbn in *.
  all: try (destruct (jsonSchema env sch) as [s|e]; cbn in *;
    [ destruct (resolved_streamObject _) as [f|] eqn:Hf;
      [destruct (f _) as [res|e] eqn:Hres|]; cbn in *;
      try (by apply Hh in Hok);
      injection Hok as <-; eexists f, _, res; cbn;
      split_and!; try done; set_solver
    | by apply Hh in Hok ]).
  all: destruct (smoothStream env) as [t|e]; cbn in *;
    [ destruct (resolved_streamText _) as [f|] eqn:Hf;
      [destruct (f _) as [res|e] eqn:Hres|]; cbn in *;
      try (by apply Hh in Hok);
      injection Hok as <-; eexists f, _, res; cbn;
      split_and!; try done; set_solver
    | by apply Hh in Hok ].
Qed.

Lemma success_carries_backend_result_witness :
  ∃ f o res,
    resolved_streamText
      (resolve_sdk (DEFAULT_AI_SDK_PROVIDER stub_env)
         (aiSdkProvider injected_request)) = Some f
    ∧ CallStreamText o ∈ trace (ai stub_env injected_request)
    ∧ f o = Returns res
    ∧ [JStr "Bye"] = st_fullStream res
    ∧ Returns "Bye" = st_text res
    ∧ Returns JUndefined = st_reasoning res
    ∧ Returns (JObj [("totalTokens", JNum 1)]) = st_usage res
    ∧ Returns [] = st_toolCalls res
    ∧ Returns JUndefined = st_providerMetadata res.
Proof.
  assert (Htr : translates stub_env) by (intros e; by eexists).
  exact (success_carries_backend_result stub_env injected_request
           (ReturnText
              {| rt_fullStream := [JStr "Bye"];
                 rt_text := Returns "Bye";
                 rt_reasoning := Returns JUndefined;
                 rt_usage := Returns (JObj [("totalTokens", JNum 1)]);
                 rt_toolCalls := Returns [];
                 rt_providerMetadata := Returns JUndefined;
                 rt_type := type_text;
                 rt_providerName := "openai" |})
           Htr eq_refl).
Defined.

(** ** The arguments of the adapter factory *)

(** X5. Every call to the adapter factory receives the [model] of the
    rule-transformed config as its first argument and, as its options, that
    config without [providerOptions]: every other field other than
    [cacheControl] is there exactly as in the config (absent when absent),
    and an own [cacheControl] property of the config is passed with the value
    it holds. *)
Theorem adapter_factory_arguments env a model opts :
  CallProviderAdapter model opts ∈ trace (ai env a) →
  ∃ rule,
    validated env a rule
    ∧ model = default JUndefined (rule_config rule !! "model")
    ∧ opts !! "providerOptions" = None
    ∧ (∀ k, k ≠ "cacheControl" → k ≠ "providerOptions" →
            opts !! k = rule_config rule !! k)
    ∧ (∀ v, rule_config rule !! "cacheControl" = Some v →
            opts !! "cacheControl" = Some v).
Proof.
  intros Hin. apply adapter_call_inv in Hin as (_ & rule & Hval & -> & ->).
  exists rule. split; [done|]. split; [done|].
  split; [apply adapter_options_providerOptions|].
  split; [intros k; apply adapter_options_other | apply adapter_options_own].
Qed.

Lemma adapter_factory_arguments_witness :
  ∃ opts,
    trace (ai stub_env injected_request) !! 2
      = Some (CallProviderAdapter (JStr "gpt-test") opts)
    ∧ opts !! "providerOptions" = None
    ∧ opts !! "cacheControl" = Some (JBool true)
    ∧ opts !! "model" = Some (JStr "gpt-test").
Proof.
  exists (adapter_options (config injected_request)).
  split; [reflexivity|].
  destruct (adapter_factory_arguments stub_env injected_request
              (JStr "gpt-test") (adapter_options (config injected_request)))
    as (rule & [Hrule _] & _ & Hpo & Hother & Hcc).
  - apply (list_elem_of_lookup_2 _ 2). reflexivity.
  - injection Hrule as <-. cbn [rule_config] in *.
    split; [exact Hpo|]. split; [by apply Hcc|].
    by rewrite Hother.
Defined.

(** ** Where an error result comes from *)

(** X6. An error result of [ai] has one of four origins and no other: the
    rule violations reported by the Rule Engine, an error result returned by
    [createProvider], an error result returned by [buildTools], or the
    translator applied to an exception that a collaborator threw. *)
Theorem error_result_origin env a err :
  outcome (ai env a) = Returns (Result_error err) →
  (∃ rule,
      applyAllRules env (pk_provider (provider a)) (messages a) (config a)
        = Returns rule
      ∧ rules rule ≠ []
      ∧ err = {| code := AIRunError;
                 message := rule_violations_message (rules rule) |})
  ∨ (∃ rule,
      validated env a rule
      ∧ createProvider env (createProvider_args a rule)
        = Returns (Result_error err))
  ∨ (∃ rule lm,
      validated env a rule
      ∧ resolved env a rule lm
      ∧ buildTools env (get (rule_config rule) "tools")
        = Returns (Result_error err))
  ∨ (∃ e,
      Raises env a e
      ∧ handleAICallAPIError env e = Returns (Result_error err)).
Proof.
  intros Herr. unfold ai in Herr.
  destruct (outcome (ai_try env a)) as [r|e] eqn:Htry.
  2: { rewrite (outcome_try_catch_throws _ _ _ Htry) in Herr.
       do 3 right. exists e. split; [by apply thrown_raises | done]. }
  rewrite (outcome_try_catch_returns _ _ _ Htry) in Herr.
  injection Herr as ->. revert Htry. unfold ai_try. step_outcome.
  destruct (applyAllRules env _ _ _) as [rule|e'] eqn:Hrule; [|done].
  case_bool_decide as Hlen.
  { cbn. intros [= <-]. left. exists rule. split; [done|]. split; [|done].
    intros Hnil. rewrite Hnil in Hlen. cbn in Hlen. lia. }
  apply length_pos_nil in Hlen.
  assert (Hval : validated env a rule) by done.
  fold (createProvider_args a rule). step_outcome.
  destruct (createProvider env _) as [[adapter|err']|e'] eqn:Hcp; [| |done].
  2: { cbn. intros [= <-]. right. left. by exists rule. }
  rewrite outcome_bind.
  destruct (outcome (match customLanguageModel a with Some _ => _ | None => _ end))
    as [lm|e'] eqn:Hlm; [|done].
  assert (Hres : resolved env a rule lm).
  { exists adapter. split; [done|].
    destruct (customLanguageModel a); cbn in Hlm; congruence. }
  step_outcome.
  destruct (buildTools env _) as [[tools|err']|e'] eqn:Hbt; [| |done].
  2: { cbn. intros [= <-]. right. right. left. by exists rule, lm. }
  destruct (schema a) as [sch|], (output a) as [out|].
  - step_outcome. destruct (jsonSchema env sch) as [s|e']; [|done].
    rewrite outcome_bind. by destruct (outcome (invoke _ _ _ _)).
  - step_outcome. destruct (smoothStream env) as [t|e']; [|done].
    rewrite outcome_bind. by destruct (outcome (invoke _ _ _ _)).
  - step_outcome. destruct (smoothStream env) as [t|e']; [|done].
    rewrite outcome_bind. by destruct (outcome (invoke _ _ _ _)).
  - step_outcome. destruct (smoothStream env) as [t|e']; [|done].
    rewrite outcome_bind. by destruct (outcome (invoke _ _ _ _)).
Qed.

Lemma error_result_origin_witness :
  ∃ rule lm,
    validated broken_tools_env text_request rule
    ∧ resolved broken_tools_env text_request rule lm
    ∧ buildTools broken_tools_env (get (rule_config rule) "tools")
      = Returns (Result_error malformed_tool).
Proof.
  destruct (error_result_origin broken_tools_env text_request malformed_tool
              eq_refl)
    as [(rule & Hrule & Hne & _) | [(rule & _ & Hcp)
       | [Htools | (e & HR & _)]]].
  - exfalso. injection Hrule as <-. by apply Hne.
  - discriminate Hcp.
  - exact Htools.
  - exfalso. destruct HR; cbn in *; simplify_eq.
Defined.

(** ** When the translator is called *)

Lemma ai_try_no_translator env a e :
  CallHandleAICallAPIError e ∉ trace (ai_try env a).
Proof.
  intros Hin. unfold ai_try, bind, invoke, call, ret, trace in Hin.
  cbn [fst snd] in Hin.
  destruct (applyAllRules env _ _ _) as [rule|e']; cbn in Hin.
  2: { in_trace Hin; discriminate. }
  case_bool_decide; cbn in Hin.
  { in_trace Hin; discriminate. }
  destruct (createProvider env _) as [[adapter|err]|e']; cbn in Hin.
  2,3: in_trace Hin; discriminate.
  destruct (customLanguageModel a) as [lm|]; cbn in Hin;
    [| destruct (adapter _ _) as [lm|e']; cbn in Hin ].
  all: try destruct (buildTools env _) as [[tools|err]|e']; cbn in Hin.
  all: try destruct (schema a) as [sch|];
       try destruct (output a) as [out|]; cbn in Hin.
  all: try (destruct (jsonSchema env sch) as [s|e']; cbn in Hin;
            [destruct (resolved_streamObject _) as [f|]; [destruct (f _)|];
             cbn in Hin|]).
  all: try (destruct (smoothStream env) as [t|e']; cbn in Hin;
            [destruct (resolved_streamText _) as [f|]; [destruct (f _)|];
             cbn in Hin|]).
  all: in_trace Hin; discriminate.
Qed.

(** X7. The translator is called exactly when a collaborator throws: it is
    called on [e] if and only if [e] was thrown by a collaborator inside the
    [try] block, it is then the last call of the run, and what it returns or
    throws is the outcome of [ai]. *)
Theorem translator_called_iff_raised env a e :
  (CallHandleAICallAPIError e ∈ trace (ai env a) ↔ Raises env a e)
  ∧ (Raises env a e →
     trace (ai env a) = trace (ai_try env a) ++ [CallHandleAICallAPIError e]
     ∧ outcome (ai env a) = handleAICallAPIError env e).
Proof.
  assert (Hthrown : Raises env a e →
    trace (ai env a) = trace (ai_try env a) ++ [CallHandleAICallAPIError e]
    ∧ outcome (ai env a) = handleAICallAPIError env e).
  { intros HR. apply raises_thrown in HR. unfold ai.
    destruct (ai_try env a) as [t [x|e']]; cbn in *; by simplify_eq. }
  split; [split|done].
  - intros Hin. pose proof (ai_try_no_translator env a e) as Hno.
    unfold ai in Hin.
    destruct (outcome (ai_try env a)) as [x|e'] eqn:Htry.
    + destruct (ai_try env a) as [t [x'|e'']]; cbn in *; simplify_eq. done.
    + apply thrown_raises in Htry as HR.
      destruct (ai_try env a) as [t [x'|e'']]; cbn in *; simplify_eq.
      apply elem_of_app in Hin as [Hin|Hin]; [done|].
      apply list_elem_of_singleton in Hin. by simplify_eq.
  - intros HR. destruct (Hthrown HR) as [-> _].
    apply elem_of_app. right. by apply list_elem_of_singleton.
Qed.

(** ** The injected backend *)



(** X9. A property [streamText: undefined] (or [streamObject: undefined]) in
    [aiSdkProvider] replaces the default by nothing: that entry point is never
    called, and a run that gets as far as calling it ends with what the
    translator makes of the [TypeError] thrown at the call site. *)
Theorem undefined_backend_never_called env a :
  resolved_streamText
    (resolve_sdk (DEFAULT_AI_SDK_PROVIDER env) (aiSdkProvider a)) = None →
  (∀ o, CallStreamText o ∉ trace (ai env a))
  ∧ (∀ rule lm tools t,
       validated env a rule →
       resolved env a rule lm →
       buildTools env (get (rule_config rule) "tools")
         = Returns (Result_ok tools) →
       schema a = None ∨ output a = None →
       smoothStream env = Returns t →
       outcome (ai env a)
       = handleAICallAPIError env (not_a_function "streamText")).
Proof.
  intros Hnone. split.
  - intros o Hin. unfold_run. rewrite Hnone in Hin.
    destruct (applyAllRules env _ _ _) as [rule|e']; cbn in Hin.
    2: { in_trace Hin; discriminate. }
    case_bool_decide; cbn in Hin.
    { in_trace Hin; discriminate. }
    destruct (createProvider env _) as [[adapter|err]|e']; cbn in Hin.
    2,3: in_trace Hin; discriminate.
    destruct (customLanguageModel a) as [lm|]; cbn in Hin;
      [| destruct (adapter _ _) as [lm|e']; cbn in Hin ].
    all: try destruct (buildTools env _) as [[tools|err]|e']; cbn in Hin.
    all: try destruct (schema a) as [sch|];
         try destruct (output a) as [out|]; cbn in Hin.
    all: try (destruct (jsonSchema env sch) as [s|e']; cbn in Hin;
              [destruct (resolved_streamObject _) as [f|]; [destruct (f _)|];
               cbn in Hin|]).
    all: try (destruct (smoothStream env) as [t|e']; cbn in Hin).
    all: in_trace Hin; discriminate.
  - intros rule lm tools t Hval Hres Hbt Hmode Hsm.
    assert (HR : Raises env a (not_a_function "streamText")).
    { eapply RaisesStreamText; eauto. by rewrite Hnone. }
    apply raises_thrown in HR. unfold ai.
    by rewrite (outcome_try_catch_throws _ _ _ HR).
Qed.

Lemma undefined_backend_never_called_witness :
  (∀ o, CallStreamText o ∉ trace (ai stub_env undefined_backend_request))
  ∧ outcome (ai stub_env undefined_backend_request)
    = Returns (Result_error
        {| code := AIRunError; message := "streamText is not a function" |}).
Proof.
  destruct (undefined_backend_never_called stub_env undefined_backend_request
              eq_refl) as [Hno Hout].
  split; [exact Hno|].
  apply (Hout {| rules := []; rule_messages := hi;
                 rule_config := config undefined_backend_request |}
              {| modelId := "gpt-test" |} (Some ∅)
              {| transform_name := "smoothStream" |}).
  - split; reflexivity.
  - exists stub_adapter. split; reflexivity.
  - reflexivity.
  - left. reflexivity.
  - reflexivity.
Defined.

(** ** What each collaborator sees *)

(** X10. The Rule Engine is called on the provider type, the messages and the
    config of the request as they came in; [createProvider] and [buildTools]
    are called only after a validation without violations, and on what the
    Rule Engine returned: the rule-transformed messages and config (with the
    provider, its token and its url) for [createProvider], the [tools] of the
    rule-transformed config for [buildTools]; [jsonSchema] is called on the
    schema of the request, and only when the request also selects an
    output. *)
Theorem collaborators_see_rule_output env a c :
  c ∈ trace (ai env a) →
  match c with
  | CallApplyAllRules providerType ms cfg =>
      providerType = pk_provider (provider a)
      ∧ ms = messages a ∧ cfg = config a
  | CallCreateProvider args =>
      ∃ rule, validated env a rule
        ∧ cp_messages args = rule_messages rule
        ∧ cp_config args = rule_config rule
        ∧ cp_provider args = provider a
        ∧ cp_apiKey args = pk_token (provider a)
        ∧ cp_url args = pk_url (provider a)
  | CallBuildTools tools =>
      ∃ rule, validated env a rule
        ∧ tools = default JUndefined (rule_config rule !! "tools")
  | CallJsonSchema sch => schema a = Some sch ∧ is_Some (output a)
  | _ => True
  end.
Proof.
  intros Hin. unfold_run.
  destruct (applyAllRules env _ _ _) as [rule|e'] eqn:Hrule; cbn in Hin.
  2: { in_trace Hin; by subst. }
  case_bool_decide as Hlen; cbn in Hin.
  { in_trace Hin; by subst. }
  apply length_pos_nil in Hlen.
  assert (Hval : validated env a rule) by done.
  assert (Hcp : ∃ rule', validated env a rule'
            ∧ rule_messages rule = rule_messages rule'
            ∧ rule_config rule = rule_config rule'
            ∧ provider a = provider a
            ∧ pk_token (provider a) = pk_token (provider a)
            ∧ pk_url (provider a) = pk_url (provider a))
    by (by exists rule).
  assert (Hbt : ∃ rule', validated env a rule'
            ∧ get (rule_config rule) "tools"
              = default JUndefined (rule_config rule' !! "tools"))
    by (by exists rule).
  destruct (createProvider env _) as [[adapter|err]|e']; cbn in Hin.
  2,3: in_trace Hin; by subst.
  destruct (customLanguageModel a) as [lm|]; cbn in Hin;
    [| destruct (adapter _ _) as [lm|e']; cbn in Hin ].
  all: try destruct (buildTools env _) as [[tools|err]|e']; cbn in Hin.
  all: try destruct (schema a) as [sch|];
       try destruct (output a) as [out|]; cbn in Hin.
  all: try (destruct (jsonSchema env sch) as [s|e']; cbn in Hin;
            [destruct (resolved_streamObject _) as [f|]; [destruct (f _)|];
             cbn in Hin|]).
  all: try (destruct (smoothStream env) as [t|e']; cbn in Hin;
            [destruct (resolved_streamText _) as [f|]; [destruct (f _)|];
             cbn in Hin|]).
  all: in_trace Hin; subst; try done.
  all: split; [done | by eexists].
Qed.

Lemma collaborators_see_rule_output_witness :
  ∃ rule, validated stub_env injected_request rule
    ∧ JUndefined = default JUndefined (rule_config rule !! "tools").
Proof.
  apply (collaborators_see_rule_output stub_env injected_request
           (CallBuildTools JUndefined)).
  apply (list_elem_of_lookup_2 _ 3). reflexivity.
Defined.

(** ** The prompt *)

(** X11. Every call to the streaming backend receives as [prompt] the prompt
    of the request, and [undefined] when the request has none; a config field
    named [prompt] does not reach the backend. *)
Theorem prompt_passed_unchanged env a c o :
  c ∈ trace (ai env a) →
  backend_options c = Some o →
  o !! "prompt"
  = Some (OData match prompt a with
                | Some text => JStr text
                | None => JUndefined
                end).
Proof.
  intros Hin Hopt. pose proof (dispatch_inv _ _ _ _ Hin Hopt) as HD.
  destruct HD; cbn in Hopt; injection Hopt as <-.
  - rewrite streamObject_options_other by done.
    rewrite commonOptions_prompt. by destruct (prompt a).
  - rewrite streamText_options_other by done.
    rewrite commonOptions_prompt. by destruct (prompt a).
Qed.

Lemma prompt_passed_unchanged_witness :
  injected_request_options !! "prompt" = Some (OData (JStr "Say bye"))
  ∧ text_request_options !! "prompt" = Some (OData JUndefined).
Proof.
  split.
  - apply (prompt_passed_unchanged stub_env injected_request
             (CallStreamText injected_request_options)); [|reflexivity].
    apply (list_elem_of_lookup_2 _ 5). reflexivity.
  - apply (prompt_passed_unchanged stub_env text_request
             (CallStreamText text_request_options)); [|reflexivity].
    apply (list_elem_of_lookup_2 _ 5). reflexivity.
Defined.
